(** * The spreadsheet-to-blog pipeline: row parsing and duplicate detection

    A shallow embedding of [pipeline/utils/helpers.py],
    [pipeline/services/google_sheet.py] and
    [pipeline/services/content_generator.py], followed by the properties
    of the content-identity subsystem proved about it. *)

From Stdlib Require Import ZArith String Ascii List Bool Lia Floats.
From stdpp Require Import base option list gmap strings pretty.

Set Warnings "-register-all".
Open Scope string_scope.

(** ** Python values, exceptions and effects *)

Module Py.

(** Exception classes the modelled code raises or catches. *)
Inductive exc_class :=
| IndexError | KeyError | AttributeError | TypeError | ValueError
| HttpError | APIError.

(** An exception: its class and its message, [str(exc)]. *)
Record exn := Exn { exn_class : exc_class; exn_msg : string }.

#[export] Instance exc_class_eq_dec : EqDecision exc_class.
Proof. solve_decision. Defined.

Inductive result (A : Type) :=
| Ok (a : A)
| Raise (e : exn).
Arguments Ok {A} a.
Arguments Raise {A} e.

#[export] Instance result_ret : MRet result := fun A a => Ok a.
#[export] Instance result_bind : MBind result := fun A B f m =>
  match m with
  | Ok a => f a
  | Raise e => Raise e
  end.

(** Values held by a row or record dictionary: text cells, and the integer
    [row_number].  The fields the code reads as text are annotated [str]
    in the source ([Dict[str, str]]). *)
Inductive pyval :=
| VStr (s : string)
| VInt (n : Z).

(** [value or ""] for a text field read with [dict.get]: an absent key
    reads as the empty string. *)
Definition get_text (d : gmap string pyval) (k : string) : string :=
  match d !! k with
  | Some (VStr s) => s
  | _ => ""
  end.

(** [d.get(k, "")]: the stored value, whatever it is, or the default. *)
Definition get_default (d : gmap string pyval) (k : string) : pyval :=
  default (VStr "") (d !! k).

(** Truth value of a [str]: non-empty. *)
Definition truthy (s : string) : bool :=
  match s with
  | EmptyString => false
  | String _ _ => true
  end.

(** *** [str] methods

    A [str] is modelled by the byte string of its UTF-8 encoding.
    [lower] maps the ASCII capitals, and [strip] removes the ASCII
    characters for which [str.isspace] holds; bytes of multi-byte
    characters are left alone. *)

Definition code (c : ascii) : N := N_of_ascii c.

Definition isspace (c : ascii) : bool :=
  let n := code c in
  ((9 <=? n) && (n <=? 13) || (28 <=? n) && (n <=? 32))%N.

Definition isupper (c : ascii) : bool :=
  let n := code c in ((65 <=? n) && (n <=? 90))%N.

Definition lower_char (c : ascii) : ascii :=
  if isupper c then ascii_of_N (code c + 32) else c.

Fixpoint lower (s : string) : string :=
  match s with
  | EmptyString => EmptyString
  | String c s' => String (lower_char c) (lower s')
  end.

(** [s.lstrip(chars)] and [s.rstrip(chars)], the set of characters given
    as a predicate. *)
Fixpoint lstrip_of (p : ascii -> bool) (s : string) : string :=
  match s with
  | EmptyString => EmptyString
  | String c s' => if p c then lstrip_of p s' else s
  end.

Fixpoint rstrip_of (p : ascii -> bool) (s : string) : string :=
  match s with
  | EmptyString => EmptyString
  | String c s' =>
      match rstrip_of p s' with
      | EmptyString => if p c then EmptyString else String c EmptyString
      | r => String c r
      end
  end.

Definition strip (s : string) : string := rstrip_of isspace (lstrip_of isspace s).

Definition is_char (a : ascii) (c : ascii) : bool := Ascii.eqb a c.

(** [s.startswith(p)] *)
Definition startswith (s p : string) : bool := String.prefix p s.

(** [needle in hay] on two [str]. *)
Fixpoint contains (hay needle : string) : bool :=
  String.prefix needle hay ||
  match hay with
  | EmptyString => false
  | String _ hay' => contains hay' needle
  end.

(** [c in s] for a single character. *)
Fixpoint has_char (c : ascii) (s : string) : bool :=
  match s with
  | EmptyString => false
  | String a s' => Ascii.eqb a c || has_char c s'
  end.

(** [s.split(sep)] for a one-character separator: never the empty list. *)
Fixpoint split (sep : ascii) (s : string) : list string :=
  match s with
  | EmptyString => [EmptyString]
  | String c s' =>
      if Ascii.eqb c sep then EmptyString :: split sep s'
      else match split sep s' with
           | h :: t => String c h :: t
           | [] => [String c EmptyString]
           end
  end.

(** Longest prefix of characters satisfying [p], and the rest. *)
Fixpoint span (p : ascii -> bool) (s : string) : string * string :=
  match s with
  | EmptyString => (EmptyString, EmptyString)
  | String c s' =>
      if p c then let '(a, b) := span p s' in (String c a, b)
      else (EmptyString, s)
  end.

Fixpoint str_filter (p : ascii -> bool) (s : string) : string :=
  match s with
  | EmptyString => EmptyString
  | String c s' => if p c then String c (str_filter p s') else str_filter p s'
  end.

Fixpoint str_forall (p : ascii -> bool) (s : string) : bool :=
  match s with
  | EmptyString => true
  | String c s' => p c && str_forall p s'
  end.

Definition len {A} (l : list A) : Z := Z.of_nat (length l).

(** [l[i]] with Python's negative indices; [IndexError] out of range. *)
Definition index {A} (l : list A) (i : Z) : result A :=
  let j := if (i <? 0)%Z then (len l + i)%Z else i in
  if (j <? 0)%Z then Raise (Exn IndexError "list index out of range")
  else match l !! Z.to_nat j with
       | Some x => Ok x
       | None => Raise (Exn IndexError "list index out of range")
       end.

(** [enumerate(l, start)] *)
Fixpoint enumerate {A} (start : Z) (l : list A) : list (Z * A) :=
  match l with
  | [] => []
  | x :: l' => (start, x) :: enumerate (start + 1) l'
  end.

End Py.
Export Py.

(** ** urllib.parse.urlparse

    The path component that [urlparse] returns, after CPython's [urlsplit]:
    leading control characters and spaces are dropped, tab, carriage return
    and line feed are removed, the scheme and the network location are split
    off, then the fragment, the query and the parameters of the last
    segment.  A network location with an unmatched square bracket raises
    [ValueError].  The validation of a bracketed host as an IP literal and
    the NFKC check of a non-ASCII host are not modelled. *)

Module UrlParse.

Definition c0_or_space (c : ascii) : bool := (code c <=? 32)%N.

Definition unsafe_byte (c : ascii) : bool :=
  let n := code c in ((n =? 9) || (n =? 10) || (n =? 13))%N.

Definition isalpha (c : ascii) : bool :=
  let n := code c in
  ((65 <=? n) && (n <=? 90) || (97 <=? n) && (n <=? 122))%N.

Definition isdigit (c : ascii) : bool :=
  let n := code c in ((48 <=? n) && (n <=? 57))%N.

Definition scheme_char (c : ascii) : bool :=
  isalpha c || isdigit c || has_char c "+-.".

Definition uses_params : list string :=
  [""; "ftp"; "hdl"; "prospero"; "http"; "imap"; "https"; "shttp"; "rtsp";
   "rtspu"; "sip"; "sips"; "mms"; "sftp"; "tel"].

(** [(scheme, rest)] : the scheme is split off when the text before the
    first colon is non-empty, starts with a letter and holds scheme
    characters only. *)
Definition split_scheme (url : string) : string * string :=
  let '(pre, rest) := span (fun c => negb (is_char ":" c)) url in
  match pre, rest with
  | String c0 _, String _ after =>
      if isalpha c0 && str_forall scheme_char pre then (lower pre, after)
      else (EmptyString, url)
  | _, _ => (EmptyString, url)
  end.

(** [(netloc, rest)] when the text starts with two slashes. *)
Definition split_netloc (url : string) : string * string :=
  match url with
  | String "/" (String "/" after) =>
      span (fun c => negb (has_char c "/?#")) after
  | _ => (EmptyString, url)
  end.

Definition check_brackets (netloc : string) : result unit :=
  if xorb (has_char "[" netloc) (has_char "]" netloc)
  then Raise (Exn ValueError "Invalid IPv6 URL")
  else Ok tt.

(** [_splitparams]: the parameters start at the first semicolon of the
    last path segment. *)
Fixpoint drop_params (url : string) : string :=
  match url with
  | EmptyString => EmptyString
  | String c url' =>
      if has_char "/" url' then String c (drop_params url')
      else if is_char "/" c then String c (fst (span (fun a => negb (is_char ";" a)) url'))
      else fst (span (fun a => negb (is_char ";" a)) url)
  end.

Definition urlparse_path (raw : string) : result string :=
  let url := lstrip_of c0_or_space raw in
  let url := str_filter (fun c => negb (unsafe_byte c)) url in
  let '(scheme, url) := split_scheme url in
  let '(netloc, url) := split_netloc url in
  _ ← check_brackets netloc;
  let url := fst (span (fun c => negb (is_char "#" c)) url) in
  let url := fst (span (fun c => negb (is_char "?" c)) url) in
  if bool_decide (scheme ∈ uses_params) && has_char ";" url
  then Ok (drop_params url)
  else Ok url.

End UrlParse.

(** ** pipeline/utils/helpers.py *)

Module helpers.

Definition sanitize_status (value : string) : string :=
  lower (strip value).

Definition extract_slug (value : string) : result string :=
  if negb (truthy value) then Ok ""
  else
    let raw := strip value in
    if negb (truthy raw) then Ok ""
    else
      slug_candidate ←
        (if startswith raw "http://" || startswith raw "https://"
         then
           path ← UrlParse.urlparse_path raw;
           Py.index (split "/" (rstrip_of (is_char "/") path)) (-1)
         else Ok raw);
      Ok (lower (strip slug_candidate)).

Definition build_post_url (base_url slug : string) : string :=
  if negb (truthy base_url) || negb (truthy slug) then ""
  else rstrip_of (is_char "/") base_url ++ "/" ++ lstrip_of (is_char "/") slug.

End helpers.
Export helpers.

(** ** External services and effects

    The Sheets service and the language-model client are outside the
    repository; a client object holds one as a function from requests to
    outcomes.  A method is a computation over its object: it may change the
    object, emit events (log lines and the requests it sends) and either
    return or raise. *)

Module Eff.

Inductive sheets_request :=
| values_get (spreadsheetId range : string)
| values_update (spreadsheetId range valueInputOption : string)
    (values : list (list string))
| values_batchUpdate (spreadsheetId valueInputOption : string)
    (data : list (string * list (list string))).

(** What [execute()] returns, read with [response.get("values", [])]. *)
Definition sheets_response := option (list (list string)).

(** The candidate and the existing posts sent for comparison. *)
Record duplicate_query := DuplicateQuery {
  candidate : gmap string pyval;
  existing_posts : list (gmap string pyval);
  instrucciones : string
}.

(** The varying fields of the generation prompt; the instructions and the
    requested fields in it are constants. *)
Record prompt := Prompt {
  keyword_principal : pyval;
  descripcion : pyval;
  titulo_base : pyval;
  categoria : pyval
}.

(** Content of a message: plain text, or the [json.dumps] of a payload. *)
Inductive message_content :=
| Text (s : string)
| DumpsPrompt (p : prompt)
| DumpsQuery (q : duplicate_query).

Record openai_request := OpenAIRequest {
  req_model : string;
  req_input : list (string * message_content);
  req_temperature : float;
  req_max_output_tokens : Z
}.

(** A response of the Responses API, as far as [_extract_text] reads it:
    an output item may lack [content], a content part may lack [text]. *)
Inductive content_part :=
| OutputText (text : string)
| Refusal (refusal : string).

Inductive output_item :=
| Message (content : list content_part)
| Reasoning.

Record response := Response { output : list output_item }.

Inductive level := DEBUG | INFO | WARNING | ERROR.

(** A log line is recorded by its level and format string. *)
Inductive event :=
| Log (lvl : level) (fmt : string)
| SheetsCall (r : sheets_request)
| OpenAICall (r : openai_request).

Definition M (S A : Type) : Type := S -> S * list event * result A.

Definition run {S A} (m : M S A) (s : S) : S * list event * result A := m s.

#[export] Instance M_ret {S} : MRet (M S) := fun A a s => (s, [], Ok a).
#[export] Instance M_bind {S} : MBind (M S) := fun A B f m s =>
  match m s with
  | (s1, ev1, Ok a) => let '(s2, ev2, r) := f a s1 in (s2, (ev1 ++ ev2)%list, r)
  | (s1, ev1, Raise e) => (s1, ev1, Raise e)
  end.

Definition get_self {S} : M S S := fun s => (s, [], Ok s).
Definition set_self {S} (s' : S) : M S unit := fun _ => (s', [], Ok tt).
Definition raise {S A} (e : exn) : M S A := fun s => (s, [], Raise e).
Definition emit {S} (e : event) : M S unit := fun s => (s, [e], Ok tt).
Definition log {S} (lvl : level) (fmt : string) : M S unit := emit (Log lvl fmt).
Definition lift {S A} (r : result A) : M S A := fun s => (s, [], r).

(** [try: m except cls as exc: handler exc] *)
Definition try_except {S A} (m : M S A) (catches : exn -> bool)
    (handler : exn -> M S A) : M S A := fun s =>
  match m s with
  | (s1, ev1, Raise e) =>
      if catches e then let '(s2, ev2, r) := handler e s1 in (s2, (ev1 ++ ev2)%list, r)
      else (s1, ev1, Raise e)
  | out => out
  end.

Definition is_class (c : exc_class) (e : exn) : bool :=
  bool_decide (exn_class e = c).

Definition any_exception (e : exn) : bool := true.

(** [for x in l: body x] *)
Fixpoint for_each {S A} (l : list A) (body : A -> M S unit) : M S unit :=
  match l with
  | [] => mret tt
  | x :: l' => _ ← body x; for_each l' body
  end.

End Eff.
Export Eff.

(** ** pipeline/services/google_sheet.py *)

Module google_sheet.

Definition HEADER_TITULO := "título".
Definition HEADER_KEYWORD := "keyword principal".
Definition HEADER_DESCRIPCION := "descripción para el gpt".
Definition HEADER_CATEGORIA := "categoría".
Definition HEADER_EJECUTAR := "ejecutar?".
Definition HEADER_SLUG := "slug".

(** The alias table, canonical fields in the order of the dictionary
    literal.  The aliases of a field are a Python set, listed here as the
    source writes them; the order in which a set is iterated is a parameter
    of the code that iterates it. *)
Definition HEADER_ALIASES : list (string * list string) :=
  [ (HEADER_TITULO, ["título"; "titulo"]);
    (HEADER_KEYWORD, ["keyword principal"; "keyword_principal"]);
    (HEADER_DESCRIPCION,
      ["descripción para el gpt"; "descripcion para el gpt"; "descripcion";
       "descripción"]);
    (HEADER_CATEGORIA, ["categoría"; "categoria"]);
    (HEADER_EJECUTAR, ["ejecutar?"; "ejecutar"; "status"; "estado"]);
    (HEADER_SLUG, ["slug"; "url"]) ].

Definition SHEET_MAIN := "main".
Definition SHEET_INDEX := "index".

Record GoogleSheetClient := Client {
  spreadsheet_id : string;
  main_sheet_name : string;
  index_sheet_name : string;
  _service : sheets_request -> result sheets_response;
  _main_header_indices : gmap string Z;
  _main_header_aliases : gmap string string;
  _main_header_length : Z;
  _main_normalized_header : gmap string Z;
  _index_header_indices : gmap string Z;
  _index_header_aliases : gmap string string;
  _index_header_length : Z;
  _index_normalized_header : gmap string Z
}.

(** [__init__], the service it builds given. *)
Definition init (service : sheets_request -> result sheets_response)
    (spreadsheet_id main_sheet_name index_sheet_name : string) : GoogleSheetClient :=
  {| spreadsheet_id := spreadsheet_id;
     main_sheet_name := main_sheet_name;
     index_sheet_name := index_sheet_name;
     _service := service;
     _main_header_indices := ∅; _main_header_aliases := ∅;
     _main_header_length := 0; _main_normalized_header := ∅;
     _index_header_indices := ∅; _index_header_aliases := ∅;
     _index_header_length := 0; _index_normalized_header := ∅ |}.

(** A request sent through [self._service], [.execute()] included. *)
Definition execute (r : sheets_request) : M GoogleSheetClient sheets_response :=
  fun self => (self, [SheetsCall r], _service self r).

Definition _fetch_sheet_values (sheet_name : string)
    : M GoogleSheetClient (option (list (list string))) :=
  self ← get_self;
  let range_name := sheet_name ++ "!A:Z" in
  try_except
    (response ← execute (values_get (spreadsheet_id self) range_name);
     mret (Some (default [] response)))
    (is_class HttpError)
    (fun exc => _ ← log ERROR "No se pudo leer la hoja %s: %s"; mret None).

(** The first alias of the list present in the header, with its column. *)
Fixpoint first_alias (normalized_header : gmap string Z) (aliases : list string)
    : option (Z * string) :=
  match aliases with
  | [] => None
  | alias :: rest =>
      let normalized_alias := lower (strip alias) in
      match normalized_header !! normalized_alias with
      | Some idx => Some (idx, normalized_alias)
      | None => first_alias normalized_header rest
      end
  end.

Section set_iteration.

(** The order in which [for alias in aliases] visits a set of aliases. *)
Variable set_order : list string -> list string.

Definition _resolve_header_indices (normalized_header : gmap string Z)
    : gmap string Z * gmap string string :=
  foldl
    (fun '(resolved, alias_used) '(canonical, aliases) =>
       match first_alias normalized_header (set_order aliases) with
       | Some (idx, normalized_alias) =>
           (<[canonical := idx]> resolved, <[canonical := normalized_alias]> alias_used)
       | None => (resolved, alias_used)
       end)
    (∅, ∅) HEADER_ALIASES.

Definition _record_headers (header_row : list string) (indices : gmap string Z)
    (aliases : gmap string string) (sheet_type : string)
    (normalized_map : gmap string Z) : M GoogleSheetClient unit :=
  self ← get_self;
  let length := len header_row in
  if String.eqb sheet_type SHEET_MAIN then
    set_self {| spreadsheet_id := spreadsheet_id self;
                main_sheet_name := main_sheet_name self;
                index_sheet_name := index_sheet_name self;
                _service := _service self;
                _main_header_indices := indices;
                _main_header_aliases := aliases;
                _main_header_length := length;
                _main_normalized_header := normalized_map;
                _index_header_indices := _index_header_indices self;
                _index_header_aliases := _index_header_aliases self;
                _index_header_length := _index_header_length self;
                _index_normalized_header := _index_normalized_header self |}
  else
    set_self {| spreadsheet_id := spreadsheet_id self;
                main_sheet_name := main_sheet_name self;
                index_sheet_name := index_sheet_name self;
                _service := _service self;
                _main_header_indices := _main_header_indices self;
                _main_header_aliases := _main_header_aliases self;
                _main_header_length := _main_header_length self;
                _main_normalized_header := _main_normalized_header self;
                _index_header_indices := indices;
                _index_header_aliases := aliases;
                _index_header_length := length;
                _index_normalized_header := normalized_map |}.

Definition _safe_get (row : list string) (header_index : gmap string Z)
    (header_name : string) : result string :=
  match header_index !! header_name with
  | None => Ok ""
  | Some idx =>
      if (idx >=? len row)%Z then Ok ""
      else cell ← Py.index row idx; Ok (strip cell)
  end.

Definition _get_value_by_normalized (row : list string)
    (normalized_map : gmap string Z) (key : string) : result string :=
  match normalized_map !! key with
  | None => Ok ""
  | Some idx =>
      if (idx >=? len row)%Z then Ok ""
      else cell ← Py.index row idx; Ok (strip cell)
  end.

Definition _derive_url (raw_value : string) : string :=
  if negb (truthy raw_value) then ""
  else
    let value := strip raw_value in
    if startswith (lower value) "http://" || startswith (lower value) "https://"
    then value
    else "".

(** [{value.strip().lower(): idx for idx, value in enumerate(header_row)}]:
    of two cells with the same normalized text the later one stays. *)
Definition normalize_header (header_row : list string) : gmap string Z :=
  foldl (fun m '(idx, value) => <[lower (strip value) := idx]> m) ∅
        (enumerate 0 header_row).

(** The body of the loop over the data rows. *)
Definition parse_row (resolved_indices normalized : gmap string Z)
    (row_idx : Z) (row : list string) : result (gmap string pyval) :=
  titulo ← _safe_get row resolved_indices HEADER_TITULO;
  keyword ← _safe_get row resolved_indices HEADER_KEYWORD;
  descripcion ← _safe_get row resolved_indices HEADER_DESCRIPCION;
  categoria ← _safe_get row resolved_indices HEADER_CATEGORIA;
  ejecutar ← _safe_get row resolved_indices HEADER_EJECUTAR;
  let parsed_row : gmap string pyval :=
    <["ejecutar" := VStr ejecutar]> (<["categoria" := VStr categoria]>
    (<["descripcion" := VStr descripcion]> (<["keyword" := VStr keyword]>
    (<["titulo" := VStr titulo]> {["row_number" := VInt row_idx]})))) in
  slug_raw ← _safe_get row resolved_indices HEADER_SLUG;
  let parsed_row := <["slug_raw" := VStr slug_raw]> parsed_row in
  slug ← extract_slug slug_raw;
  let parsed_row := <["slug" := VStr slug]> parsed_row in
  url_value ← _get_value_by_normalized row normalized "url";
  let url := if truthy (_derive_url url_value) then _derive_url url_value
             else _derive_url slug_raw in
  Ok (<["url" := VStr url]> parsed_row).

Fixpoint parse_data_rows (resolved_indices normalized : gmap string Z)
    (rows : list (Z * list string)) : result (list (gmap string pyval)) :=
  match rows with
  | [] => Ok []
  | (row_idx, row) :: rest =>
      parsed_row ← parse_row resolved_indices normalized row_idx row;
      parsed_rows ← parse_data_rows resolved_indices normalized rest;
      Ok (parsed_row :: parsed_rows)
  end.

Definition _parse_rows (raw_rows : list (list string)) (sheet_type : string)
    : M GoogleSheetClient (list (gmap string pyval)) :=
  match raw_rows with
  | [] => _ ← _record_headers [] ∅ ∅ sheet_type ∅; mret []
  | header_row :: data_rows =>
      let normalized := normalize_header header_row in
      let '(resolved_indices, alias_used) := _resolve_header_indices normalized in
      _ ← _record_headers header_row resolved_indices alias_used sheet_type normalized;
      lift (parse_data_rows resolved_indices normalized (enumerate 2 data_rows))
  end.

Definition get_rows_to_process : M GoogleSheetClient (list (gmap string pyval)) :=
  self ← get_self;
  raw_rows ← _fetch_sheet_values (main_sheet_name self);
  match raw_rows with
  | None | Some [] => mret []
  | Some raw_rows =>
      parsed_rows ← _parse_rows raw_rows SHEET_MAIN;
      let filtered :=
        List.filter (fun row => String.eqb (sanitize_status (get_text row "ejecutar")) "si")
                    parsed_rows in
      _ ← log INFO "Encontradas %s filas para procesar";
      mret filtered
  end.

Definition get_index_records : M GoogleSheetClient (list (gmap string pyval)) :=
  self ← get_self;
  raw_rows ← _fetch_sheet_values (index_sheet_name self);
  match raw_rows with
  | None | Some [] => mret []
  | Some raw_rows => _parse_rows raw_rows SHEET_INDEX
  end.

End set_iteration.

(** [record.get("slug") or extract_slug(record.get("url", ""))] *)
Definition recorded_slug_of (record : gmap string pyval) : result string :=
  if truthy (get_text record "slug") then Ok (get_text record "slug")
  else extract_slug (get_text record "url").

(** The loop of [is_duplicate] over the index records. *)
Fixpoint is_duplicate_loop (title_normalized keyword_normalized slug_normalized : string)
    (index_records : list (gmap string pyval)) : result bool :=
  match index_records with
  | [] => Ok false
  | record :: rest =>
      let recorded_title := lower (strip (get_text record "titulo")) in
      let recorded_keyword := lower (strip (get_text record "keyword")) in
      recorded_slug ← recorded_slug_of record;
      if truthy slug_normalized && truthy recorded_slug
         && String.eqb recorded_slug slug_normalized then Ok true
      else if truthy recorded_title && String.eqb recorded_title title_normalized
      then Ok true
      else if truthy keyword_normalized && truthy recorded_keyword
              && String.eqb recorded_keyword keyword_normalized then Ok true
      else is_duplicate_loop title_normalized keyword_normalized slug_normalized rest
  end.

Definition is_duplicate (title keyword slug : string)
    (index_records : list (gmap string pyval)) : result bool :=
  let title_normalized := lower (strip title) in
  let keyword_normalized := lower (strip keyword) in
  slug_normalized ← extract_slug slug;
  is_duplicate_loop title_normalized keyword_normalized slug_normalized index_records.

Definition _update_values (range_name : string) (values : list (list string))
    : M GoogleSheetClient unit :=
  self ← get_self;
  try_except
    (_ ← execute (values_update (spreadsheet_id self) range_name "RAW" values);
     mret tt)
    (is_class HttpError)
    (fun exc => log ERROR "Error actualizando rango %s: %s").

(** [chr(n)] for a code below 256. *)
Definition chr (n : Z) : ascii := ascii_of_N (Z.to_N n).

(** The [while current > 0] loop of [_column_letter]; [fuel] bounds the
    number of iterations. *)
Fixpoint column_letter_loop (fuel : nat) (current : Z) (result : string) : string :=
  match fuel with
  | O => result
  | S fuel' =>
      if (current >? 0)%Z then
        let remainder := ((current - 1) mod 26)%Z in
        let current := ((current - 1) / 26)%Z in
        column_letter_loop fuel' current (String (chr (65 + remainder)) result)
      else result
  end.

Definition _column_letter (index : Z) : string :=
  if (index <? 0)%Z then "A"
  else
    let current := (index + 1)%Z in
    let result := column_letter_loop (Z.to_nat current) current "" in
    if truthy result then result else "A".

Definition mark_status (row_number : Z) (status : string) : M GoogleSheetClient unit :=
  self ← get_self;
  let ejecutar_idx := default 4%Z (_main_header_indices self !! HEADER_EJECUTAR) in
  let column_letter := _column_letter ejecutar_idx in
  let range_name := main_sheet_name self ++ "!" ++ column_letter ++ pretty row_number in
  _update_values range_name [[status]].

Definition log_duplicate (row_number : Z) : M GoogleSheetClient unit :=
  _ ← log INFO "Fila %s marcada como duplicado";
  mark_status row_number "duplicado".

(** [_batched_updates]: successive [islice]s of [size] items until one is
    empty; [fuel] bounds the number of chunks. *)
Fixpoint batched_updates_loop {A} (fuel : nat) (items : list A) (size : nat)
    : list (list A) :=
  match fuel with
  | O => []
  | S fuel' =>
      match take size items with
      | [] => []
      | chunk => chunk :: batched_updates_loop fuel' (drop size items) size
      end
  end.

Definition _batched_updates {A} (items : list A) (size : nat) : list (list A) :=
  batched_updates_loop (S (length items)) items size.

Definition batch_mark_status (updates : list (Z * string)) : M GoogleSheetClient unit :=
  for_each (_batched_updates updates 50) (fun chunk =>
    self ← get_self;
    let data :=
      map (fun '(row, status) =>
             let ejecutar_idx :=
               default 4%Z (_main_header_indices self !! HEADER_EJECUTAR) in
             let column_letter := _column_letter ejecutar_idx in
             (main_sheet_name self ++ "!" ++ column_letter ++ pretty row,
              [[status]]))
          chunk in
    try_except
      (_ ← execute (values_batchUpdate (spreadsheet_id self) "RAW" data); mret tt)
      (is_class HttpError)
      (fun exc => log ERROR "Error en batchUpdate: %s")).

End google_sheet.
Export google_sheet.

(** ** pipeline/services/content_generator.py *)

Module content_generator.

(** What [json.loads] returns: [None], [bool], [int], [float], [str], [list]
    or [dict]; a [dict] is given by its items, each key once. *)
Inductive json :=
| JNull
| JBool (b : bool)
| JInt (n : Z)
| JFloat (f : float)
| JStr (s : string)
| JList (items : list json)
| JDict (items : list (string * json)).

Fixpoint dict_lookup (items : list (string * json)) (key : string) : option json :=
  match items with
  | [] => None
  | (k, v) :: rest => if String.eqb k key then Some v else dict_lookup rest key
  end.

(** [bool(v)] *)
Definition bool_of (v : json) : bool :=
  match v with
  | JNull => false
  | JBool b => b
  | JInt n => negb (n =? 0)%Z
  | JFloat f => negb (PrimFloat.eqb f 0%float)
  | JStr s => truthy s
  | JList items => negb (bool_decide (length items = 0%nat))
  | JDict items => negb (bool_decide (length items = 0%nat))
  end.

(** [field in payload], a [str] on the left. *)
Definition py_in (field : string) (payload : json) : result bool :=
  match payload with
  | JDict items => Ok (bool_decide (is_Some (dict_lookup items field)))
  | JList items =>
      Ok (existsb (fun v => match v with JStr s => String.eqb s field | _ => false end) items)
  | JStr s => Ok (contains s field)
  | _ => Raise (Exn TypeError "argument is not iterable")
  end.

(** [payload.get(key)]; [None] is [JNull]. *)
Definition py_get (payload : json) (key : string) : result json :=
  match payload with
  | JDict items => Ok (default JNull (dict_lookup items key))
  | _ => Raise (Exn AttributeError "object has no attribute 'get'")
  end.

(** [len(payload[key])] where [payload[key]] is known to be a list. *)
Definition list_items (v : json) : option (list json) :=
  match v with
  | JList items => Some items
  | _ => None
  end.

Definition required_fields : list string :=
  ["title"; "meta_description"; "h1"; "content_html"; "faqs"; "image_prompts"].

(** [[field for field in fields if field not in payload]] *)
Fixpoint missing_fields (fields : list string) (payload : json) : result (list string) :=
  match fields with
  | [] => Ok []
  | field :: rest =>
      present ← py_in field payload;
      missing ← missing_fields rest payload;
      Ok (if (present : bool) then missing else field :: missing)
  end.

(** [str] of a list of [str], as the f-string prints it. *)
Definition repr_list (l : list string) : string :=
  "[" ++ String.concat ", " (map (fun f => "'" ++ f ++ "'") l) ++ "]".

Definition _validate_payload (payload : json) : result unit :=
  missing ← missing_fields required_fields payload;
  match missing with
  | _ :: _ =>
    Raise (Exn ValueError
             ("La respuesta del modelo no incluye los campos: " ++ repr_list missing))
  | [] =>
    faqs ← py_get payload "faqs";
    match list_items faqs with
    | None => Raise (Exn ValueError "La respuesta debe incluir al menos 5 FAQs.")
    | Some items =>
        if (len items <? 5)%Z
        then Raise (Exn ValueError "La respuesta debe incluir al menos 5 FAQs.")
        else
          image_prompts ← py_get payload "image_prompts";
          match list_items image_prompts with
          | None => Raise (Exn ValueError "Se requieren prompts de imagen.")
          | Some [] => Raise (Exn ValueError "Se requieren prompts de imagen.")
          | Some _ => Ok tt
          end
    end
  end.

(** A text between double quotes. *)
Definition quoted (s : string) : string :=
  String (ascii_of_N 34) s ++ String (ascii_of_N 34) EmptyString.

Record ContentGenerator := Generator {
  client : openai_request -> result response;
  model : string;
  temperature : float
}.

Definition SYSTEM_PROMPT :=
  "Eres un redactor SEO senior que crea artículos con tono humano, " ++
  "alineados con EEAT, fáciles de escanear y listos para publicar.".

(** [self.client.responses.create(...)] *)
Definition responses_create (r : openai_request) : M ContentGenerator response :=
  fun self => (self, [OpenAICall r], client self r).

Definition build_prompt (payload : gmap string pyval) : prompt :=
  {| keyword_principal := get_default payload "keyword";
     descripcion := get_default payload "descripcion";
     titulo_base := get_default payload "titulo";
     categoria := get_default payload "categoria" |}.

(** [response.output[0].content[0].text] *)
Definition output_text (r : response) : result string :=
  item ← Py.index (output r) 0;
  content ← match item with
            | Message content => Ok content
            | Reasoning => Raise (Exn AttributeError "object has no attribute 'content'")
            end;
  part ← Py.index content 0;
  match part with
  | OutputText text => Ok text
  | Refusal _ => Raise (Exn AttributeError "object has no attribute 'text'")
  end.

Definition _extract_text (r : response) : M ContentGenerator string :=
  try_except (lift (output_text r))
    (fun e => is_class AttributeError e || is_class IndexError e || is_class KeyError e)
    (fun _ =>
       _ ← log ERROR "Formato de respuesta inesperado: %s";
       raise (Exn ValueError "No se pudo extraer texto de la respuesta del modelo.")).

(** [filtered[:limit]] *)
Definition slice_to {A} (l : list A) (limit : Z) : list A :=
  if (limit <? 0)%Z then take (Z.to_nat (len l + limit)) l
  else take (Z.to_nat limit) l.

(** The test of the loop of [_select_relevant_index] on one record. *)
Definition is_relevant (keyword category : string) (record : gmap string pyval) : bool :=
  let record_keyword := lower (strip (get_text record "keyword")) in
  let record_category := lower (strip (get_text record "categoria")) in
  if truthy keyword && truthy record_keyword && contains record_keyword keyword
  then true
  else truthy category && truthy record_category && String.eqb category record_category.

Definition summary (rec : gmap string pyval) : gmap string pyval :=
  <["url" := get_default rec "url"]> (<["slug" := get_default rec "slug"]>
  (<["category" := get_default rec "categoria"]>
  (<["keyword" := get_default rec "keyword"]>
  {["title" := get_default rec "titulo"]}))).

Definition _select_relevant_index (candidate : gmap string pyval)
    (index_records : list (gmap string pyval)) (limit : Z)
    : list (gmap string pyval) :=
  let keyword := lower (strip (get_text candidate "keyword")) in
  let category := lower (strip (get_text candidate "categoria")) in
  let filtered := List.filter (is_relevant keyword category) index_records in
  let filtered := match filtered with [] => index_records | _ => filtered end in
  let trimmed := slice_to filtered limit in
  map summary trimmed.

(** The request of [generate]: model, messages, temperature and output
    bound as the call passes them. *)
Definition generate_request (self : ContentGenerator) (user_prompt : prompt)
    : openai_request :=
  {| req_model := model self;
     req_input :=
       [ ("system", Text SYSTEM_PROMPT);
         ("user",
          Text ("Devuelve **exclusivamente** un JSON válido. " ++
                "El JSON debe tener: title, meta_description, h1, content_html, " ++
                "faqs (lista de objetos con question y answer) e image_prompts " ++
                "(lista de strings)."));
         ("user", DumpsPrompt user_prompt) ];
     req_temperature := temperature self;
     req_max_output_tokens := 2000 |}.

(** [request_payload] of [is_semantic_duplicate]. *)
Definition request_payload_of (candidate : gmap string pyval)
    (relevant_records : list (gmap string pyval)) : duplicate_query :=
  {| Eff.candidate :=
       <["url" := get_default candidate "url"]>
       (<["slug" := get_default candidate "slug"]>
       (<["category" := get_default candidate "categoria"]>
       (<["description" := get_default candidate "descripcion"]>
       (<["keyword" := get_default candidate "keyword"]>
       {["title" := get_default candidate "titulo"]}))));
     existing_posts := relevant_records;
     instrucciones :=
       "Evalúa si el candidato trata el mismo tema o intención que alguna entrada existente. " ++
       "Responde solo con JSON {" ++ quoted "duplicate" ++ ": bool, " ++
       quoted "reason" ++ ": string, " ++ quoted "match_slug" ++ ": string}." |}.

(** The request of [is_semantic_duplicate]: zero temperature, at most 400
    output tokens. *)
Definition duplicate_request (self : ContentGenerator) (request_payload : duplicate_query)
    : openai_request :=
  {| req_model := model self;
     req_input :=
       [ ("system",
          Text ("Actúas como analista editorial. Identificas duplicados temáticos " ++
                "en una base de contenidos existente."));
         ("user",
          Text ("Devuelve exclusivamente JSON válido con los campos duplicate (bool), " ++
                "reason (string) y match_slug (string)."));
         ("user", DumpsQuery request_payload) ];
     req_temperature := 0%float;
     req_max_output_tokens := 400 |}.

Section json_decoder.

(** [json.loads] on a text: the decoded value, or [None] when it raises
    [JSONDecodeError]. *)
Variable json_loads : string -> option json.

Definition generate (payload : gmap string pyval) : M ContentGenerator json :=
  self ← get_self;
  let user_prompt := build_prompt payload in
  response ←
    try_except
      (responses_create (generate_request self user_prompt))
      any_exception
      (fun exc => _ ← log ERROR "Error al llamar a OpenAI: %s"; raise exc);
  content ← _extract_text response;
  if negb (truthy content) then
    raise (Exn ValueError "La respuesta del modelo está vacía.")
  else
    parsed ←
      match json_loads content with
      | Some parsed => mret parsed
      | None =>
          _ ← log ERROR "Respuesta del modelo no es JSON válido: %s";
          raise (Exn ValueError "El modelo no devolvió JSON válido.")
      end;
    _ ← lift (_validate_payload parsed);
    mret parsed.

(** In [is_semantic_duplicate] the guarded call gives the response, or
    [None] when its handler has returned [False]. *)
Definition is_semantic_duplicate (candidate : gmap string pyval)
    (index_records : list (gmap string pyval)) : M ContentGenerator bool :=
  self ← get_self;
  let relevant_records := _select_relevant_index candidate index_records 25 in
  match relevant_records with
  | [] => mret false
  | _ =>
      let request_payload := request_payload_of candidate relevant_records in
      called ←
        try_except
          (response ← responses_create (duplicate_request self request_payload);
           mret (Some response))
          any_exception
          (fun exc => _ ← log ERROR "Error evaluando duplicado con OpenAI: %s"; mret None);
      match called with
      | None => mret false
      | Some response =>
          raw_text ← _extract_text response;
          match json_loads raw_text with
          | None =>
              _ ← log ERROR "Respuesta de duplicado no es JSON válido: %s";
              mret false
          | Some result =>
              duplicate ← lift (py_get result "duplicate");
              let is_duplicate := bool_of duplicate in
              _ ← (if is_duplicate
                   then log INFO "El modelo detectó duplicado: %s (coincidencia slug: %s)"
                   else mret tt);
              mret is_duplicate
          end
      end
  end.

End json_decoder.

End content_generator.
Export content_generator.

(** ** pipeline/utils/helpers.py: chunks of an iterable *)

(** The loop of [chunked]: [chunk] is the list being filled; what the
    generator yields, in order. *)
Fixpoint chunked_loop {A} (size : Z) (chunk : list A) (iterable : list A)
    : list (list A) :=
  match iterable with
  | [] =>
      match chunk with
      | [] => []
      | _ => [chunk]
      end
  | item :: rest =>
      let chunk := (chunk ++ [item])%list in
      if (len chunk =? size)%Z then chunk :: chunked_loop size [] rest
      else chunked_loop size chunk rest
  end.

Definition chunked {A} (iterable : list A) (size : Z) : list (list A) :=
  chunked_loop size [] iterable.

(** ** pipeline/services/google_sheet.py: the auxiliary columns *)

Definition ADDITIONAL_ALIASES : list (string * list string) :=
  [ ("slug", ["slug"; "url"]);
    ("url", ["url"; "link"]);
    ("post_id", ["post_id"; "post id"; "id"; "postid"]);
    ("excerpt", ["extracto"; "extracto_200"; "extracto 200"; "resumen"; "excerpt"]) ].

(** [table.get(key)] on a dictionary of alias sets. *)
Fixpoint aliases_get (table : list (string * list string)) (key : string)
    : option (list string) :=
  match table with
  | [] => None
  | (k, aliases) :: rest =>
      if String.eqb k key then Some aliases else aliases_get rest key
  end.

(** Truth value of an optional set: [None] and the empty set are false. *)
Definition truthy_set (aliases : option (list string)) : bool :=
  match aliases with
  | Some (_ :: _) => true
  | _ => false
  end.

(** The loop over the candidates of [_get_main_column_index]: the column of
    the first candidate that the header has. *)
Fixpoint first_column (normalized_header : gmap string Z) (candidates : list string)
    : option Z :=
  match candidates with
  | [] => None
  | candidate :: rest =>
      match normalized_header !! candidate with
      | Some idx => Some idx
      | None => first_column normalized_header rest
      end
  end.

(** The elements put into the set [candidates] for a key. *)
Definition candidates_of (key : string) : list string :=
  let normalized_key := lower (strip key) in
  let header_aliases := aliases_get HEADER_ALIASES normalized_key in
  let header_aliases :=
    if negb (truthy_set header_aliases) then aliases_get HEADER_ALIASES key
    else header_aliases in
  let additional := aliases_get ADDITIONAL_ALIASES normalized_key in
  ([normalized_key]
   ++ (if truthy_set header_aliases
       then map (fun alias => lower (strip alias)) (default [] header_aliases) else [])
   ++ (if truthy_set additional
       then map (fun alias => lower (strip alias)) (default [] additional) else []))%list.

Section set_iteration_writes.

(** The order in which a set of strings is iterated. *)
Variable set_order : list string -> list string.

(** Reads and parses the main sheet when [loaded] is false. *)
Definition load_main_header (loaded : bool) : M GoogleSheetClient unit :=
  if loaded then mret tt
  else
    self ← get_self;
    raw_rows ← _fetch_sheet_values (main_sheet_name self);
    _ ← _parse_rows set_order (default [] raw_rows) SHEET_MAIN;
    mret tt.

Definition _get_main_column_index (key : string) : M GoogleSheetClient (option Z) :=
  let normalized_key := lower (strip key) in
  if negb (truthy normalized_key) then mret None
  else
    self ← get_self;
    _ ← load_main_header (negb (bool_decide (_main_normalized_header self = ∅)));
    self ← get_self;
    if bool_decide (_main_normalized_header self = ∅) then mret None
    else
      mret (first_column (_main_normalized_header self)
              (set_order (remove_dups (candidates_of key)))).

(** The loop of [update_main_row] over [data.items()], the items in the
    order of the dictionary. *)
Fixpoint collect_updates (row_number : Z) (data : list (string * string))
    : M GoogleSheetClient (list (string * list (list string))) :=
  match data with
  | [] => mret []
  | (key, value) :: rest =>
      idx ← _get_main_column_index key;
      match idx with
      | None =>
          _ ← log DEBUG "Columna no encontrada para '%s', se omite actualización";
          collect_updates row_number rest
      | Some idx =>
          self ← get_self;
          let column_letter := _column_letter idx in
          updates ← collect_updates row_number rest;
          mret ((main_sheet_name self ++ "!" ++ column_letter ++ pretty row_number,
                 [[value]]) :: updates)
      end
  end.

Definition update_main_row (row_number : Z) (data : list (string * string))
    : M GoogleSheetClient unit :=
  match data with
  | [] => mret tt
  | _ =>
      self ← get_self;
      _ ← load_main_header (negb (bool_decide (_main_header_indices self = ∅)));
      self ← get_self;
      if bool_decide (_main_header_indices self = ∅) then
        log WARNING "No se pudo actualizar la hoja principal: no se detectaron encabezados."
      else
        updates ← collect_updates row_number data;
        match updates with
        | [] => mret tt
        | _ =>
            _ ← log INFO "Actualizando fila %s en %s con columnas: %s";
            self ← get_self;
            try_except
              (_ ← execute (values_batchUpdate (spreadsheet_id self) "RAW" updates);
               mret tt)
              (is_class HttpError)
              (fun exc => log ERROR "Error actualizando fila %s: %s")
        end
  end.

End set_iteration_writes.

(** ** pipeline/services/wordpress.py *)

Module wordpress.

(** What the calls of the client raise: a built-in exception, an exception
    of [requests] raised by the session or by [response.json()], or the
    [HTTPError] of [raise_for_status]. *)
Inductive wp_exception :=
| Builtin (e : exn)
| RequestException (msg : string)
| HTTPError (status : Z).

Inductive reply (A : Type) :=
| Returns (a : A)
| Raises (e : wp_exception).
Arguments Returns {A} a.
Arguments Raises {A} e.

Inductive http_method := GET | POST.

(** A call of [self.session.get] or [self.session.post]: the URL, the
    [params], the [json] body and the [timeout] as the call passes them. *)
Record http_request := HttpRequest {
  http_method_of : http_method;
  http_url : string;
  http_params : list (string * json);
  http_json : option json;
  http_timeout : Z
}.

(** A response: its [status_code], its [text], and what [json()] gives. *)
Record http_response := HttpResponse {
  status_code : Z;
  text : string;
  json_of : reply json
}.

Inductive wp_event :=
| Logged (lvl : level) (fmt : string)
| Sent (r : http_request).

Record WordPressClient := WPClient {
  base_url : string;
  default_status : string;
  category_cache : gmap string json
}.

(** [s[:n]] on a text in UTF-8, for [n] that is not negative: the bytes of
    its first [n] characters. A byte 10xxxxxx continues a character. *)
Definition is_continuation (c : ascii) : bool :=
  (128 <=? code c)%N && (code c <? 192)%N.

Fixpoint take_chars (n : nat) (s : string) : string :=
  match s with
  | EmptyString => EmptyString
  | String c rest =>
      if is_continuation c then String c (take_chars n rest)
      else
        match n with
        | O => EmptyString
        | S n' => String c (take_chars n' rest)
        end
  end.

(** [response.raise_for_status()] *)
Definition raise_for_status (response : http_response) : reply unit :=
  if (400 <=? status_code response)%Z && (status_code response <? 600)%Z
  then Raises (HTTPError (status_code response))
  else Returns tt.

(** [items[0]] on a decoded value. *)
Definition first_item (items : json) : reply json :=
  match items with
  | JList (item :: _) => Returns item
  | JList [] => Raises (Builtin (Exn IndexError "list index out of range"))
  | JDict _ => Raises (Builtin (Exn KeyError "0"))
  | JStr EmptyString => Raises (Builtin (Exn IndexError "string index out of range"))
  | JStr text => Returns (JStr (take_chars 1 text))
  | _ => Raises (Builtin (Exn TypeError "object is not subscriptable"))
  end.

(** [value.get(key)] *)
Definition get (value : json) (key : string) : reply json :=
  match py_get value key with
  | Ok v => Returns v
  | Raise e => Raises (Builtin e)
  end.

(** [bool(value)] of an optional text. *)
Definition given (value : option string) : bool :=
  match value with
  | Some s => truthy s
  | None => false
  end.

Section session.

(** The site behind [self.session]: its state, and what it answers to a
    request. *)
Variable site : Type.
Variable serve : site -> http_request -> site * reply http_response.

Definition W (A : Type) : Type :=
  WordPressClient * site -> WordPressClient * site * list wp_event * reply A.

Definition run_wp {A} (m : W A) (self : WordPressClient) (s : site)
    : WordPressClient * site * list wp_event * reply A := m (self, s).

#[export] Instance W_ret : MRet W := fun A a s => (s, [], Returns a).
#[export] Instance W_bind : MBind W := fun A B f m s =>
  match m s with
  | (s1, ev1, Returns a) => let '(s2, ev2, r) := f a s1 in (s2, (ev1 ++ ev2)%list, r)
  | (s1, ev1, Raises e) => (s1, ev1, Raises e)
  end.

Definition self_ : W WordPressClient := fun s => (s, [], Returns (fst s)).
Definition logger (lvl : level) (fmt : string) : W unit :=
  fun s => (s, [Logged lvl fmt], Returns tt).
Definition lift_reply {A} (r : reply A) : W A := fun s => (s, [], r).

(** [self.session.get(...)], [self.session.post(...)] *)
Definition session_request (r : http_request) : W http_response :=
  fun s => let '(site', answer) := serve (snd s) r in ((fst s, site'), [Sent r], answer).

(** [self.category_cache[key] = value] *)
Definition cache_category (key : string) (value : json) : W unit :=
  fun s =>
    (({| base_url := base_url (fst s);
         default_status := default_status (fst s);
         category_cache := <[key := value]> (category_cache (fst s)) |}, snd s),
     [], Returns tt).

Definition find_request (self : WordPressClient) (normalized_name : string)
    : http_request :=
  {| http_method_of := GET;
     http_url := base_url self ++ "/wp-json/wp/v2/categories";
     http_params := [("search", JStr normalized_name); ("per_page", JInt 1)];
     http_json := None;
     http_timeout := 30 |}.

Definition _find_category (normalized_name : string) : W json :=
  self ← self_;
  response ← session_request (find_request self normalized_name);
  if (400 <=? status_code response)%Z then
    _ ← logger ERROR "Error buscando categoría '%s': %s";
    mret JNull
  else
    items ← lift_reply (json_of response);
    if negb (bool_of items) then mret JNull
    else
      item ← lift_reply (first_item items);
      lift_reply (get item "id").

Definition create_request (self : WordPressClient) (category_name : string)
    : http_request :=
  {| http_method_of := POST;
     http_url := base_url self ++ "/wp-json/wp/v2/categories";
     http_params := [];
     http_json := Some (JDict [("name", JStr (strip category_name))]);
     http_timeout := 30 |}.

Definition _create_category (category_name : string) : W json :=
  self ← self_;
  response ← session_request (create_request self category_name);
  if (400 <=? status_code response)%Z then
    _ ← logger ERROR "Error creando categoría '%s': %s";
    mret JNull
  else
    data ← lift_reply (json_of response);
    lift_reply (get data "id").

Definition _ensure_category (category_name : string) : W json :=
  let normalized := lower (strip category_name) in
  self ← self_;
  match category_cache self !! normalized with
  | Some cached => mret cached
  | None =>
      category_id ← _find_category normalized;
      if bool_of category_id then
        _ ← cache_category normalized category_id;
        mret category_id
      else
        category_id ← _create_category category_name;
        _ ← (if bool_of category_id then cache_category normalized category_id
             else mret tt);
        mret category_id
  end.

(** The [payload] of [publish_post] before the category is looked up. *)
Definition post_fields (self : WordPressClient) (title content_html : string)
    (meta_description slug : option string) : list (string * json) :=
  ([ ("title", JStr title); ("content", JStr content_html);
     ("status", JStr (default_status self)) ]
   ++ (if given meta_description
       then [("excerpt", JStr (take_chars 300 (default "" meta_description)))] else [])
   ++ (if given slug then [("slug", JStr (strip (default "" slug)))] else []))%list.

Definition post_request (self : WordPressClient) (payload : list (string * json))
    : http_request :=
  {| http_method_of := POST;
     http_url := base_url self ++ "/wp-json/wp/v2/posts";
     http_params := [];
     http_json := Some (JDict payload);
     http_timeout := 30 |}.

Definition publish_post (title content_html : string)
    (meta_description category_name slug : option string) : W json :=
  self ← self_;
  let payload := post_fields self title content_html meta_description slug in
  payload ←
    (if given category_name then
       category_id ← _ensure_category (default "" category_name);
       mret (if bool_of category_id
             then (payload ++ [("categories", JList [category_id])])%list
             else payload)
     else mret payload);
  response ← session_request (post_request self payload);
  _ ← (if (400 <=? status_code response)%Z then
         _ ← logger ERROR "Error publicando en WordPress (%s): %s";
         lift_reply (raise_for_status response)
       else mret tt);
  data ← lift_reply (json_of response);
  _ ← lift_reply (get data "id");
  _ ← logger INFO "Artículo publicado en WordPress con ID %s";
  mret data.

End session.

(** The requests among the events of a run. *)
Definition requests_of (evs : list wp_event) : list http_request :=
  omap (fun ev => match ev with Sent r => Some r | Logged _ _ => None end) evs.

(** The client with one more category in its cache. *)
Definition with_category (self : WordPressClient) (key : string) (value : json)
    : WordPressClient :=
  {| base_url := base_url self;
     default_status := default_status self;
     category_cache := <[key := value]> (category_cache self) |}.

(** The number of characters of a text in UTF-8. *)
Fixpoint char_count (s : string) : nat :=
  match s with
  | EmptyString => O
  | String c rest => if is_continuation c then char_count rest else S (char_count rest)
  end.

(** A site that finds no category and gives the id 7 to what it creates,
    one whose answers are not objects, and a client of it. *)
Definition answer_of (body : json) : reply http_response :=
  Returns {| status_code := 200; text := "{}"; json_of := Returns body |}.

Definition creating_site (_ : unit) (r : http_request) : unit * reply http_response :=
  (tt, answer_of match http_method_of r with
                 | GET => JList []
                 | POST => JDict [("id", JInt 7)]
                 end).

Definition numeric_site (_ : unit) (r : http_request) : unit * reply http_response :=
  (tt, answer_of (JInt 5)).

Definition failing_site (_ : unit) (r : http_request) : unit * reply http_response :=
  (tt, Returns {| status_code := 500; text := "error";
                  json_of := Raises (RequestException "Expecting value") |}).

Definition blog_client : WordPressClient :=
  {| base_url := "https://blog.example"; default_status := "publish";
     category_cache := ∅ |}.

End wordpress.

(** ** Vocabulary of the statements *)

(** The events, and the outcome, of a run. *)
Definition trace {S A} (out : S * list event * result A) : list event := snd (fst out).
Definition outcome {S A} (out : S * list event * result A) : result A := snd out.

(** The requests sent to the Sheets service in a trace, in order. *)
Definition sheets_calls (evs : list event) : list sheets_request :=
  omap (fun ev => match ev with SheetsCall r => Some r | _ => None end) evs.

(** A service whose requests fail with [HttpError] only. *)
Definition fails_with_HttpError_only (service : sheets_request -> result sheets_response) : Prop :=
  forall r e, service r = Raise e -> exn_class e = HttpError.

(** The status cell of a row in column E of the main sheet. *)
Definition status_cell_E (self : GoogleSheetClient) (row_number : Z) : string :=
  main_sheet_name self ++ "!E" ++ pretty row_number.

(** The request that carries one chunk of status updates to column E. *)
Definition batch_request_E (self : GoogleSheetClient) (chunk : list (Z * string))
    : sheets_request :=
  values_batchUpdate (spreadsheet_id self) "RAW"
    (map (fun '(row, status) => (status_cell_E self row, [[status]])) chunk).

(** What a safe cell lookup returns for [key] in [row] under [mapping]:
    the empty string when the key has no column or the row has no cell at
    that column, the stripped cell otherwise. *)
Definition safe_lookup_result (row : list string) (mapping : gmap string Z)
    (key : string) (r : result string) : Prop :=
  match mapping !! key with
  | None => r = Ok ""
  | Some idx =>
      if (len row <=? idx)%Z then r = Ok ""
      else exists cell, row !! Z.to_nat idx = Some cell /\ r = Ok (strip cell)
  end.


Section header_vocabulary.

Variable set_order : list string -> list string.

(** The header mapping that [_parse_rows] resolves from a header row. *)
Definition resolved_of (header_row : list string) : gmap string Z :=
  fst (_resolve_header_indices set_order (normalize_header header_row)).




End header_vocabulary.

(** The aliases present in the header all name one column: the column that
    [first_alias] finds does not depend on the order of the aliases. *)
Definition unambiguous (normalized : gmap string Z) (aliases : list string) : bool :=
  forallb (fun a =>
    forallb (fun b =>
      match normalized !! lower (strip a), normalized !! lower (strip b) with
      | Some i, Some j => (i =? j)%Z && String.eqb (lower (strip a)) (lower (strip b))
      | _, _ => true
      end) aliases) aliases.

(** The order of the source text. *)
Definition as_written (aliases : list string) : list string := aliases.

(** A main sheet with four data rows, flagged "SI ", " No", "si" and, in a
    row that stops before the flag column, not at all. *)
Definition flag_sheet : list (list string) :=
  [ ["Título"; "Keyword Principal"; "Categoría"; "Ejecutar?"; "Slug"];
    ["Gatos"; "gatos"; "Felinos"; "SI "; "gatos"];
    ["Perros"; "perros"; "Caninos"; " No"; "perros"];
    ["Aves"; "aves"; "Aves"; "si"; "aves"];
    ["Peces"] ].

Definition flag_sheet_client : GoogleSheetClient :=
  init (fun _ => Ok (Some flag_sheet)) "sheet-id" "contenidos" "indice_contenido".

(** The sheet of the row-parsing scenario. *)
Definition scenario_sheet : list (list string) :=
  [ ["Título"; "Keyword Principal"; "Categoría"; "Ejecutar?"; "Slug"];
    ["Mi Post"; "clave x"; "Tecnología"; "si"; "/mi-post"] ].

(** The Logical Row that the code parses from it. *)
Definition scenario_row : gmap string pyval :=
  <["url" := VStr ""]> (<["slug" := VStr "/mi-post"]>
  (<["slug_raw" := VStr "/mi-post"]> (<["ejecutar" := VStr "si"]>
  (<["categoria" := VStr "Tecnología"]> (<["descripcion" := VStr ""]>
  (<["keyword" := VStr "clave x"]> (<["titulo" := VStr "Mi Post"]>
  {["row_number" := VInt 2]}))))))).

(** An index record stored with the slug "mi-post". *)
Definition mi_post_record : gmap string pyval :=
  <["url" := VStr "https://example.com/mi-post/"]>
  (<["slug" := VStr "mi-post"]>
  (<["keyword" := VStr "recetas de gato"]>
  {["titulo" := VStr "Mi post"]})).

(** Reading the slug of an index record does not raise. *)
Definition slug_readable (record : gmap string pyval) : Prop :=
  exists s, recorded_slug_of record = Ok s.


(** The request that [is_semantic_duplicate] sends for a candidate and an
    index. *)
Definition semantic_request (self : ContentGenerator) (candidate : gmap string pyval)
    (index_records : list (gmap string pyval)) : openai_request :=
  duplicate_request self
    (request_payload_of candidate (_select_relevant_index candidate index_records 25)).

(** A decoder given by the finite table of the texts it decodes; it stands
    for [json.loads] in the examples. *)
Definition decoder_of (table : list (string * json)) (text : string) : option json :=
  snd <$> List.find (fun entry => String.eqb (fst entry) text) table.

(** A candidate row, an index of one record, and a generator whose client
    always fails, or always answers with the given text. *)
Definition gatos_candidate : gmap string pyval :=
  <["categoria" := VStr "Felinos"]> (<["keyword" := VStr "gatos"]>
  {["titulo" := VStr "Gatos en casa"]}).

Definition gatos_index : list (gmap string pyval) :=
  [ <["categoria" := VStr "Felinos"]> (<["keyword" := VStr "gatos persas"]>
    (<["slug" := VStr "gatos-persas"]> {["titulo" := VStr "Gatos persas"]})) ].

Definition failing_generator : ContentGenerator :=
  {| client := fun _ => Raise (Exn APIError "connection error");
     model := "gpt"; temperature := 0.5%float |}.

Definition answering_generator (text : string) : ContentGenerator :=
  {| client := fun _ => Ok {| output := [Message [OutputText text]] |};
     model := "gpt"; temperature := 0.5%float |}.





(** The payload that the code accepts: every required field present,
    [faqs] a list of at least five items, [image_prompts] a list that is not
    empty. *)
Definition payload_accepted (items : list (string * json)) : bool :=
  forallb (fun field => bool_decide (is_Some (dict_lookup items field))) required_fields
  && match dict_lookup items "faqs" with
     | Some (JList faqs) => (5 <=? len faqs)%Z
     | _ => false
     end
  && match dict_lookup items "image_prompts" with
     | Some (JList (_ :: _)) => true
     | _ => false
     end.

(** The payload that the generation contract asks for, in the words of the
    specification: every required field present, at least five FAQ items
    each with a question and an answer, at least one image prompt. *)
Definition has_question_and_answer (item : json) : bool :=
  match item with
  | JDict fields =>
      bool_decide (is_Some (dict_lookup fields "question"))
      && bool_decide (is_Some (dict_lookup fields "answer"))
  | _ => false
  end.

Definition spec_payload_valid (items : list (string * json)) : bool :=
  forallb (fun field => bool_decide (is_Some (dict_lookup items field))) required_fields
  && match dict_lookup items "faqs" with
     | Some (JList faqs) => (5 <=? len (List.filter has_question_and_answer faqs))%Z
     | _ => false
     end
  && match dict_lookup items "image_prompts" with
     | Some (JList prompts) => (1 <=? len prompts)%Z
     | _ => false
     end.

(** A response with five FAQ items that are bare strings. *)
Definition bare_faqs_payload : list (string * json) :=
  [ ("title", JStr "Gatos en casa");
    ("meta_description", JStr "Todo sobre gatos");
    ("h1", JStr "Gatos en casa");
    ("content_html", JStr "<p>Gatos</p>");
    ("faqs", JList [JStr "uno"; JStr "dos"; JStr "tres"; JStr "cuatro"; JStr "cinco"]);
    ("image_prompts", JList [JStr "un gato en un sofá"]) ].

(** The number that a column name denotes in bijective base 26: A is 1, Z
    is 26, AA is 27. *)
Fixpoint column_number_from (acc : Z) (letters : string) : Z :=
  match letters with
  | EmptyString => acc
  | String c rest => column_number_from (acc * 26 + (Z.of_N (code c) - 64)) rest
  end.

Definition column_number (letters : string) : Z := column_number_from 0 letters.


(** A record matches a candidate given by its normalized title, keyword and
    slug: one of the three comparisons of [is_duplicate] holds. *)
Definition record_matches (title_normalized keyword_normalized slug_normalized : string)
    (record : gmap string pyval) : bool :=
  let recorded_title := lower (strip (get_text record "titulo")) in
  let recorded_keyword := lower (strip (get_text record "keyword")) in
  let recorded_slug :=
    match recorded_slug_of record with
    | Ok s => s
    | Raise _ => ""
    end in
  (truthy slug_normalized && truthy recorded_slug
   && String.eqb recorded_slug slug_normalized)
  || (truthy recorded_title && String.eqb recorded_title title_normalized)
  || (truthy keyword_normalized && truthy recorded_keyword
      && String.eqb recorded_keyword keyword_normalized).

(** The requests sent to the language model in a trace, in order. *)
Definition openai_calls (evs : list event) : list openai_request :=
  omap (fun ev => match ev with OpenAICall r => Some r | _ => None end) evs.

(** The client once the header row of the main sheet, or of the index
    sheet, has been recorded. *)
Definition with_main_header (set_order : list string -> list string)
    (self : GoogleSheetClient) (header_row : list string) : GoogleSheetClient :=
  {| spreadsheet_id := spreadsheet_id self;
     main_sheet_name := main_sheet_name self;
     index_sheet_name := index_sheet_name self;
     _service := _service self;
     _main_header_indices := fst (_resolve_header_indices set_order (normalize_header header_row));
     _main_header_aliases := snd (_resolve_header_indices set_order (normalize_header header_row));
     _main_header_length := len header_row;
     _main_normalized_header := normalize_header header_row;
     _index_header_indices := _index_header_indices self;
     _index_header_aliases := _index_header_aliases self;
     _index_header_length := _index_header_length self;
     _index_normalized_header := _index_normalized_header self |}.

Definition with_index_header (set_order : list string -> list string)
    (self : GoogleSheetClient) (header_row : list string) : GoogleSheetClient :=
  {| spreadsheet_id := spreadsheet_id self;
     main_sheet_name := main_sheet_name self;
     index_sheet_name := index_sheet_name self;
     _service := _service self;
     _main_header_indices := _main_header_indices self;
     _main_header_aliases := _main_header_aliases self;
     _main_header_length := _main_header_length self;
     _main_normalized_header := _main_normalized_header self;
     _index_header_indices := fst (_resolve_header_indices set_order (normalize_header header_row));
     _index_header_aliases := snd (_resolve_header_indices set_order (normalize_header header_row));
     _index_header_length := len header_row;
     _index_normalized_header := normalize_header header_row |}.

(** The column that [_get_main_column_index] gives to a key once the header
    of the main sheet is loaded. *)
Definition column_for (set_order : list string -> list string)
    (normalized_header : gmap string Z) (key : string) : option Z :=
  if truthy (lower (strip key))
  then first_column normalized_header (set_order (remove_dups (candidates_of key)))
  else None.

(** The updates that [update_main_row] collects for a row: one per item of
    the data whose key has a column. *)
Definition row_updates (set_order : list string -> list string) (self : GoogleSheetClient)
    (row_number : Z) (data : list (string * string))
    : list (string * list (list string)) :=
  omap (fun '(key, value) =>
          (fun idx => (main_sheet_name self ++ "!" ++ _column_letter idx ++ pretty row_number,
                       [[value]]))
          <$> column_for set_order (_main_normalized_header self) key)
       data.

(** ** Properties *)

(** Unfolds the computation monad down to its state-passing functions. *)
Ltac eff_unfold :=
  unfold run, trace, outcome, try_except, execute, responses_create, get_self,
    set_self, raise, log, emit, lift, mbind, M_bind, mret, M_ret in *.

Lemma column_letter_4 : _column_letter 4 = "E".
Proof. reflexivity. Qed.

(** The loop of [_column_letter] ends within the fuel it is given: more
    fuel changes nothing. *)
Lemma column_letter_loop_fuel (fuel1 fuel2 : nat) :
  forall (current : Z) (result : string),
    (Z.to_nat current <= fuel1)%nat -> (Z.to_nat current <= fuel2)%nat ->
    column_letter_loop fuel1 current result = column_letter_loop fuel2 current result.
Proof.
  revert fuel2. induction fuel1 as [| fuel1 IH]; intros fuel2 current result H1 H2.
  - destruct fuel2 as [| fuel2]; [reflexivity |].
    cbn [column_letter_loop]. destruct (current >? 0)%Z eqn:Hpos; [lia | reflexivity].
  - destruct fuel2 as [| fuel2]; cbn [column_letter_loop].
    + destruct (current >? 0)%Z eqn:Hpos; [lia | reflexivity].
    + destruct (current >? 0)%Z eqn:Hpos; [| reflexivity].
      assert (Hdiv : ((current - 1) / 26 < current)%Z).
      { apply Z.div_lt_upper_bound; lia. }
      assert (Hnonneg : (0 <= (current - 1) / 26)%Z) by (apply Z.div_pos; lia).
      apply IH; lia.
Qed.

Lemma init_unresolved (service : sheets_request -> result sheets_response)
    (spreadsheet_id main_sheet_name index_sheet_name : string) :
  _main_header_indices (init service spreadsheet_id main_sheet_name index_sheet_name)
    !! HEADER_EJECUTAR = None.
Proof. reflexivity. Qed.

Lemma run_update_values (self : GoogleSheetClient) (range_name : string) values :
  run (_update_values range_name values) self =
    let req := values_update (spreadsheet_id self) range_name "RAW" values in
    match _service self req with
    | Ok _ => (self, [SheetsCall req], Ok tt)
    | Raise e =>
        if is_class HttpError e
        then (self, [SheetsCall req; Log ERROR "Error actualizando rango %s: %s"], Ok tt)
        else (self, [SheetsCall req], Raise e)
    end.
Proof.
  unfold _update_values. eff_unfold. cbn.
  destruct (_service self _) as [resp | e]; cbn; [reflexivity |].
  destruct (is_class HttpError e); reflexivity.
Qed.

Lemma run_mark_status_unresolved (self : GoogleSheetClient) (row_number : Z) (status : string) :
  _main_header_indices self !! HEADER_EJECUTAR = None ->
  run (mark_status row_number status) self =
  run (_update_values (status_cell_E self row_number) [[status]]) self.
Proof.
  intros Hnone. unfold mark_status, status_cell_E.
  unfold run, get_self, mbind, M_bind at 1. cbn.
  rewrite Hnone. cbn.
  destruct (_update_values _ _ self) as [[s ev] r]. reflexivity.
Qed.

(** *** Strings *)

Lemma lstrip_of_head (p : ascii -> bool) (s : string) :
  match lstrip_of p s with
  | EmptyString => True
  | String c _ => p c = false
  end.
Proof.
  induction s as [| c s IH]; cbn; [exact I |].
  destruct (p c) eqn:Hc; [exact IH | exact Hc].
Qed.

Lemma lstrip_of_fixed (p : ascii -> bool) (s : string) :
  match s with EmptyString => True | String c _ => p c = false end ->
  lstrip_of p s = s.
Proof. destruct s as [| c s]; cbn; [reflexivity |]. intros ->. reflexivity. Qed.

Lemma rstrip_of_head (p : ascii -> bool) (c : ascii) (s : string) :
  rstrip_of p (String c s) = EmptyString \/
  exists r, rstrip_of p (String c s) = String c r.
Proof.
  cbn. destruct (rstrip_of p s) as [| d r].
  - destruct (p c); [left; reflexivity | right; eexists; reflexivity].
  - right. eexists. reflexivity.
Qed.

Lemma rstrip_of_idem (p : ascii -> bool) (s : string) :
  rstrip_of p (rstrip_of p s) = rstrip_of p s.
Proof.
  induction s as [| c s IH]; [reflexivity |].
  cbn [rstrip_of]. destruct (rstrip_of p s) as [| d r] eqn:Hr.
  - destruct (p c) eqn:Hc; [reflexivity |]. cbn. rewrite Hc. reflexivity.
  - cbn [rstrip_of] in *. rewrite IH. reflexivity.
Qed.

Lemma strip_idem (s : string) : strip (strip s) = strip s.
Proof.
  unfold strip. pose proof (lstrip_of_head isspace s) as Hhead.
  destruct (lstrip_of isspace s) as [| c t]; [reflexivity |].
  destruct (rstrip_of_head isspace c t) as [-> | [r Hr]]; [reflexivity |].
  rewrite <- (rstrip_of_idem isspace (String c t)) at 2.
  f_equal. rewrite Hr. apply lstrip_of_fixed. exact Hhead.
Qed.


(** *** Status writes *)

Lemma batched_updates_loop_concat {A} (size : nat) :
  (0 < size)%nat ->
  forall (fuel : nat) (items : list A),
    (length items < fuel)%nat ->
    concat (batched_updates_loop fuel items size) = items /\
    Forall (fun chunk => 0 < length chunk <= size)%nat (batched_updates_loop fuel items size).
Proof.
  intros Hsize. induction fuel as [| fuel IH]; intros items Hlen; [lia |].
  cbn [batched_updates_loop].
  destruct (take size items) as [| x chunk] eqn:Htake.
  - destruct items as [| y items]; [split; [reflexivity | constructor] |].
    destruct size; [lia | cbn in Htake; discriminate].
  - assert (Hne : (0 < length items)%nat).
    { destruct items; [rewrite take_nil in Htake; discriminate | cbn; lia]. }
    assert (Hdrop : (length (drop size items) < fuel)%nat).
    { rewrite length_drop. lia. }
    destruct (IH _ Hdrop) as [Hcat Hall]. split.
    + cbn [concat]. rewrite Hcat, <- Htake. apply take_drop.
    + constructor; [| exact Hall].
      rewrite <- Htake, length_take. lia.
Qed.

Lemma batched_updates_spec {A} (items : list A) (size : nat) :
  (0 < size)%nat ->
  concat (_batched_updates items size) = items /\
  Forall (fun chunk => 0 < length chunk <= size)%nat (_batched_updates items size).
Proof. intros H. apply batched_updates_loop_concat; [exact H | lia]. Qed.

Lemma run_batch_chunk_unresolved (self : GoogleSheetClient) (chunk : list (Z * string)) :
  _main_header_indices self !! HEADER_EJECUTAR = None ->
  fails_with_HttpError_only (_service self) ->
  exists logs,
    run (self ← get_self;
         let data :=
           map (fun '(row, status) =>
                  let ejecutar_idx :=
                    default 4%Z (_main_header_indices self !! HEADER_EJECUTAR) in
                  let column_letter := _column_letter ejecutar_idx in
                  (main_sheet_name self ++ "!" ++ column_letter ++ pretty row,
                   [[status]]))
               chunk in
         try_except
           (_ ← execute (values_batchUpdate (spreadsheet_id self) "RAW" data); mret tt)
           (is_class HttpError)
           (fun exc => log ERROR "Error en batchUpdate: %s")) self
    = (self, SheetsCall (batch_request_E self chunk) :: logs, Ok tt)
    /\ sheets_calls logs = [].
Proof.
  intros Hnone Hsvc. eff_unfold. cbv beta. rewrite Hnone.
  change (_column_letter (default 4%Z None)) with "E".
  match goal with
  | |- context [_service self ?r] =>
      change r with (batch_request_E self chunk);
      destruct (_service self (batch_request_E self chunk)) as [resp | e] eqn:Hcall
  end; cbn.
  - exists []. split; reflexivity.
  - apply Hsvc in Hcall. unfold is_class. rewrite bool_decide_eq_true_2 by exact Hcall.
    cbn. eexists. split; reflexivity.
Qed.

Lemma sheets_calls_app (evs1 evs2 : list event) :
  sheets_calls (evs1 ++ evs2) = (sheets_calls evs1 ++ sheets_calls evs2)%list.
Proof. apply omap_app. Qed.

Lemma sheets_calls_call (r : sheets_request) (evs : list event) :
  sheets_calls (SheetsCall r :: evs) = r :: sheets_calls evs.
Proof. reflexivity. Qed.

Lemma run_batch_mark_status_unresolved (self : GoogleSheetClient) (updates : list (Z * string)) :
  _main_header_indices self !! HEADER_EJECUTAR = None ->
  fails_with_HttpError_only (_service self) ->
  exists evs,
    run (batch_mark_status updates) self = (self, evs, Ok tt) /\
    sheets_calls evs = map (batch_request_E self) (_batched_updates updates 50).
Proof.
  intros Hnone Hsvc. unfold batch_mark_status.
  generalize (_batched_updates updates 50). intros chunks.
  induction chunks as [| chunk chunks IH].
  - exists []. split; reflexivity.
  - destruct IH as (evs & Hrun & Hcalls).
    destruct (run_batch_chunk_unresolved self chunk Hnone Hsvc) as (logs & Hchunk & Hlogs).
    exists ((SheetsCall (batch_request_E self chunk) :: logs) ++ evs)%list. split.
    + cbn [for_each]. unfold run in *. unfold mbind at 1. unfold M_bind at 1.
      cbv beta. rewrite Hchunk. cbv beta iota. rewrite Hrun. reflexivity.
    + rewrite sheets_calls_app, sheets_calls_call, Hlogs, Hcalls. reflexivity.
Qed.

(** C9. When the execution-flag column is not resolved (no sheet read yet,
    or no alias found in the header), [mark_status] sends one write, to the
    cell of column E (zero-based index 4) in the given row, and
    [batch_mark_status] sends every update, in chunks of at most 50, each to
    the cell of column E in its row; neither raises nor skips a write as
    long as the service fails with [HttpError] only. *)
Theorem status_write_defaults_to_column_E (self : GoogleSheetClient) :
  _main_header_indices self !! HEADER_EJECUTAR = None ->
  fails_with_HttpError_only (_service self) ->
  (forall (row_number : Z) (status : string),
     exists logs,
       run (mark_status row_number status) self =
         (self,
          SheetsCall (values_update (spreadsheet_id self)
                        (status_cell_E self row_number) "RAW" [[status]]) :: logs,
          Ok tt)
       /\ sheets_calls logs = [])
  /\
  (forall updates : list (Z * string),
     exists evs chunks,
       run (batch_mark_status updates) self = (self, evs, Ok tt)
       /\ sheets_calls evs = map (batch_request_E self) chunks
       /\ concat chunks = updates
       /\ Forall (fun chunk => 0 < length chunk <= 50)%nat chunks).
Proof.
  intros Hnone Hsvc. split.
  - intros row_number status.
    rewrite (run_mark_status_unresolved self row_number status Hnone).
    rewrite run_update_values. cbv zeta.
    destruct (_service self _) as [resp | e] eqn:Hcall.
    + exists []. split; reflexivity.
    + apply Hsvc in Hcall. unfold is_class.
      rewrite bool_decide_eq_true_2 by exact Hcall.
      eexists. split; reflexivity.
  - intros updates.
    destruct (run_batch_mark_status_unresolved self updates Hnone Hsvc) as (evs & Hrun & Hcalls).
    destruct (batched_updates_spec updates 50 ltac:(lia)) as [Hcat Hall].
    exists evs, (_batched_updates updates 50). auto.
Qed.

Lemma status_write_defaults_to_column_E_witness :
  let self := init (fun _ => Ok None) "sheet-id" "contenidos" "indice_contenido" in
  (exists logs,
     run (mark_status 7 "hecho") self =
       (self, SheetsCall (values_update "sheet-id" "contenidos!E7" "RAW" [["hecho"]]) :: logs,
        Ok tt)
     /\ sheets_calls logs = [])
  /\
  (exists evs chunks,
     run (batch_mark_status [(2%Z, "hecho"); (3%Z, "error")]) self = (self, evs, Ok tt)
     /\ sheets_calls evs = map (batch_request_E self) chunks
     /\ concat chunks = [(2%Z, "hecho"); (3%Z, "error")]
     /\ Forall (fun chunk => 0 < length chunk <= 50)%nat chunks).
Proof.
  intros self.
  destruct (status_write_defaults_to_column_E self) as [Hmark Hbatch].
  - reflexivity.
  - intros r e H. discriminate H.
  - split; [exact (Hmark 7%Z "hecho") | exact (Hbatch _)].
Defined.

(** *** Header mapping and cell lookup *)

Lemma index_in_range {A} (l : list A) (i : Z) :
  (0 <= i < len l)%Z -> exists x, l !! Z.to_nat i = Some x /\ Py.index l i = Ok x.
Proof.
  intros [Hlo Hhi]. unfold Py.index, len in *.
  destruct (i <? 0)%Z eqn:Hneg; [lia |].
  rewrite Hneg.
  destruct (l !! Z.to_nat i) as [x |] eqn:Hx.
  - exists x. split; reflexivity.
  - apply lookup_ge_None in Hx. lia.
Qed.

Lemma normalize_header_fold (l : list string) :
  forall (start : Z) (m : gmap string Z) (k : string) (i : Z),
    foldl (fun m '(idx, value) => <[lower (strip value) := idx]> m) m (enumerate start l) !! k
      = Some i ->
    m !! k = Some i \/ (start <= i < start + len l)%Z.
Proof.
  induction l as [| value l IH]; intros start m k i H; cbn [foldl enumerate] in H.
  - left. exact H.
  - apply IH in H. unfold len in *. cbn [length]. destruct H as [H | H]; [| right; lia].
    destruct (decide (lower (strip value) = k)) as [Heq | Hne].
    + rewrite Heq, lookup_insert_eq in H. injection H as <-. right. lia.
    + rewrite lookup_insert_ne in H by exact Hne. left. exact H.
Qed.

Lemma normalize_header_range (header_row : list string) (k : string) (i : Z) :
  normalize_header header_row !! k = Some i -> (0 <= i < len header_row)%Z.
Proof.
  intros H. apply normalize_header_fold in H. destruct H as [H | H]; [| lia].
  rewrite lookup_empty in H. discriminate.
Qed.

Section set_iteration_facts.

Variable set_order : list string -> list string.

Lemma first_alias_in_header (normalized : gmap string Z) (aliases : list string)
    (idx : Z) (alias : string) :
  first_alias normalized aliases = Some (idx, alias) ->
  normalized !! alias = Some idx /\ exists a, a ∈ aliases /\ alias = lower (strip a).
Proof.
  induction aliases as [| a rest IH]; cbn [first_alias]; [discriminate |].
  destruct (normalized !! lower (strip a)) as [j |] eqn:Hj.
  - intros H. injection H as <- <-. split; [exact Hj |].
    exists a. split; [left | reflexivity].
  - intros H. destruct (IH H) as (Hin & a' & Ha' & Heq). split; [exact Hin |].
    exists a'. split; [right; exact Ha' | exact Heq].
Qed.

Lemma resolve_fold_in_header (normalized : gmap string Z) (table : list (string * list string)) :
  forall (acc : gmap string Z * gmap string string) (k : string) (i : Z),
    fst (foldl
           (fun '(resolved, alias_used) '(canonical, aliases) =>
              match first_alias normalized (set_order aliases) with
              | Some (idx, normalized_alias) =>
                  (<[canonical := idx]> resolved,
                   <[canonical := normalized_alias]> alias_used)
              | None => (resolved, alias_used)
              end) acc table) !! k = Some i ->
    fst acc !! k = Some i \/
    exists aliases alias,
      (k, aliases) ∈ table /\ first_alias normalized (set_order aliases) = Some (i, alias).
Proof.
  induction table as [| [canonical aliases] table IH]; intros [resolved used] k i H;
    cbn [foldl] in H.
  - left. exact H.
  - apply IH in H. destruct H as [H | (als & a & Hin & Hfa)].
    2:{ right. exists als, a. split; [right; exact Hin | exact Hfa]. }
    destruct (first_alias normalized (set_order aliases)) as [[idx a] |] eqn:Hfa; cbn [fst] in H.
    + destruct (decide (canonical = k)) as [-> | Hne].
      * rewrite lookup_insert_eq in H. injection H as <-.
        right. exists aliases, a. split; [left | exact Hfa].
      * rewrite lookup_insert_ne in H by exact Hne. left. exact H.
    + left. exact H.
Qed.

Lemma resolved_from_alias (normalized : gmap string Z) (k : string) (i : Z) :
  fst (_resolve_header_indices set_order normalized) !! k = Some i ->
  exists aliases a,
    (k, aliases) ∈ HEADER_ALIASES /\ a ∈ set_order aliases /\
    normalized !! lower (strip a) = Some i.
Proof.
  intros H. apply resolve_fold_in_header in H. destruct H as [H | (als & alias & Hin & Hfa)].
  - cbn in H. rewrite lookup_empty in H. discriminate.
  - apply first_alias_in_header in Hfa. destruct Hfa as (Hidx & a & Ha & ->).
    exists als, a. auto.
Qed.

Lemma resolved_index_range (header_row : list string) (k : string) (i : Z) :
  fst (_resolve_header_indices set_order (normalize_header header_row)) !! k = Some i ->
  (0 <= i < len header_row)%Z.
Proof.
  intros H. apply resolved_from_alias in H. destruct H as (als & a & _ & _ & H).
  apply (normalize_header_range _ _ _ H).
Qed.

(** The lookup shared by [_safe_get] and [_get_value_by_normalized], on a
    mapping whose columns are not negative. *)
Lemma safe_lookup_cases (row : list string) (mapping : gmap string Z) (key : string) :
  (forall idx, mapping !! key = Some idx -> (0 <= idx)%Z) ->
  match mapping !! key with
  | None => _safe_get row mapping key = Ok ""
  | Some idx =>
      match row !! Z.to_nat idx with
      | None => (len row <= idx)%Z /\ _safe_get row mapping key = Ok ""
      | Some cell => (idx < len row)%Z /\ _safe_get row mapping key = Ok (strip cell)
      end
  end.
Proof.
  intros Hpos. unfold _safe_get.
  destruct (mapping !! key) as [idx |]; [| reflexivity].
  specialize (Hpos idx eq_refl).
  destruct (idx >=? len row)%Z eqn:Hge.
  - assert (Hout : row !! Z.to_nat idx = None).
    { apply lookup_ge_None. unfold len in Hge. lia. }
    rewrite Hout. split; [lia | reflexivity].
  - destruct (index_in_range row idx ltac:(lia)) as (cell & Hcell & Hidx).
    rewrite Hcell, Hidx. split; [lia | reflexivity].
Qed.

Lemma get_value_by_normalized_eq (row : list string) (mapping : gmap string Z) (key : string) :
  _get_value_by_normalized row mapping key = _safe_get row mapping key.
Proof. reflexivity. Qed.

Lemma safe_lookup_nonneg (row : list string) (mapping : gmap string Z) (key : string) :
  (forall idx, mapping !! key = Some idx -> (0 <= idx)%Z) ->
  safe_lookup_result row mapping key (_safe_get row mapping key) /\
  exists s, _safe_get row mapping key = Ok s.
Proof.
  intros Hpos. pose proof (safe_lookup_cases row mapping key Hpos) as H.
  unfold safe_lookup_result. destruct (mapping !! key) as [idx |].
  - destruct (row !! Z.to_nat idx) as [cell |] eqn:Hcell.
    + destruct H as [Hlt ->]. split; [| eauto].
      destruct (len row <=? idx)%Z eqn:Hle; [lia | eauto].
    + destruct H as [Hle ->]. split; [| eauto].
      destruct (len row <=? idx)%Z eqn:Hle'; [reflexivity | lia].
  - rewrite H. eauto.
Qed.

(** C6. For every header row, data row and field name, the lookups of the
    Row Parser return without raising: [_safe_get] under the resolved header
    mapping and [_get_value_by_normalized] under the normalized header give
    the empty string when the field has no column or the row is too short
    for that column, and the stripped cell otherwise. *)
Theorem safe_cell_lookup_total (header_row row : list string) (field : string) :
  let normalized := normalize_header header_row in
  let resolved := fst (_resolve_header_indices set_order normalized) in
  (safe_lookup_result row resolved field (_safe_get row resolved field) /\
   exists s, _safe_get row resolved field = Ok s)
  /\
  (safe_lookup_result row normalized field (_get_value_by_normalized row normalized field) /\
   exists s, _get_value_by_normalized row normalized field = Ok s).
Proof.
  intros normalized resolved. split.
  - apply safe_lookup_nonneg. intros idx H.
    apply resolved_index_range in H. lia.
  - rewrite get_value_by_normalized_eq. apply safe_lookup_nonneg. intros idx H.
    apply normalize_header_range in H. lia.
Qed.

(** *** Row parsing and the execution flag *)







Lemma run_fetch_sheet_values (self : GoogleSheetClient) (sheet_name : string) :
  run (_fetch_sheet_values sheet_name) self =
    let req := values_get (spreadsheet_id self) (sheet_name ++ "!A:Z") in
    match _service self req with
    | Ok response => (self, [SheetsCall req], Ok (Some (default [] response)))
    | Raise e =>
        if is_class HttpError e
        then (self, [SheetsCall req; Log ERROR "No se pudo leer la hoja %s: %s"], Ok None)
        else (self, [SheetsCall req], Raise e)
    end.
Proof.
  unfold _fetch_sheet_values. eff_unfold. cbv beta zeta.
  destruct (_service self _) as [response | e]; [reflexivity |].
  destruct (is_class HttpError e); reflexivity.
Qed.

Lemma run_parse_rows (self : GoogleSheetClient) (header_row : list string)
    (data_rows : list (list string)) (sheet_type : string) :
  exists self',
    run (_parse_rows set_order (header_row :: data_rows) sheet_type) self =
      (self', [],
       parse_data_rows (resolved_of set_order header_row) (normalize_header header_row)
         (enumerate 2 data_rows)) /\
    (sheet_type = SHEET_MAIN ->
     _main_header_indices self' = resolved_of set_order header_row) /\
    _service self' = _service self /\
    spreadsheet_id self' = spreadsheet_id self /\
    main_sheet_name self' = main_sheet_name self.
Proof.
  unfold _parse_rows, resolved_of.
  destruct (_resolve_header_indices set_order (normalize_header header_row))
    as [resolved used].
  unfold _record_headers. eff_unfold. cbv beta zeta. cbn [fst].
  destruct (String.eqb sheet_type SHEET_MAIN) eqn:Htype; eexists;
    (split; [reflexivity |]); cbn; repeat split; try reflexivity.
  intros ->. discriminate Htype.
Qed.

(** A header row without any alias of the execution flag leaves the flag
    column unresolved. *)
Lemma unresolved_without_alias (header_row : list string) :
  (forall alias, alias ∈ set_order ["ejecutar?"; "ejecutar"; "status"; "estado"] ->
     normalize_header header_row !! lower (strip alias) = None) ->
  resolved_of set_order header_row !! HEADER_EJECUTAR = None.
Proof.
  intros Habsent.
  destruct (resolved_of set_order header_row !! HEADER_EJECUTAR) as [i |] eqn:Hres;
    [| reflexivity].
  unfold resolved_of in Hres. apply resolved_from_alias in Hres.
  destruct Hres as (aliases & a & Hin & Ha & Hfound).
  unfold HEADER_ALIASES in Hin.
  repeat match type of Hin with
         | _ ∈ _ :: _ => apply elem_of_cons in Hin; destruct Hin as [Hin | Hin]
         | _ ∈ [] => apply elem_of_nil in Hin; contradiction
         end;
    try (injection Hin as Hname _; vm_compute in Hname; discriminate Hname).
  injection Hin as ->.
  rewrite (Habsent a Ha) in Hfound. discriminate Hfound.
Qed.



End set_iteration_facts.


(** On the sheet with the flags "SI ", " No", "si" and a short row, the
    rows to process are the rows 2 and 4. *)
Example flag_sheet_rows_to_process :
  match outcome (run (get_rows_to_process as_written) flag_sheet_client) with
  | Ok rows => map (fun row : gmap string pyval => row !! "row_number") rows
  | Raise _ => []
  end = [Some (VInt 2); Some (VInt 4)].
Proof. vm_compute. reflexivity. Qed.

(** Without rows to read, nothing is to process: the read failed with
    [HttpError], or the sheet has no values or no rows. *)
Lemma rows_to_process_nothing_read (set_order : list string -> list string)
    (self : GoogleSheetClient) :
  match _service self (values_get (spreadsheet_id self) (main_sheet_name self ++ "!A:Z")) with
  | Ok None | Ok (Some []) => True
  | Ok (Some (_ :: _)) => False
  | Raise e => exn_class e = HttpError
  end ->
  outcome (run (get_rows_to_process set_order) self) = Ok [].
Proof.
  intros Hread. unfold get_rows_to_process.
  unfold run at 1. unfold mbind at 1. unfold M_bind at 1. unfold get_self.
  unfold mbind at 1. unfold M_bind at 1.
  pose proof (run_fetch_sheet_values self (main_sheet_name self)) as Hf.
  cbv zeta in Hf. unfold run in Hf. rewrite Hf.
  destruct (_service self _) as [[[| header_row data_rows] |] | e]; try reflexivity.
  - contradiction.
  - unfold is_class. rewrite bool_decide_eq_true_2 by exact Hread. reflexivity.
Qed.

(** *** The order of the aliases *)

Section order_independence.

Variable set_order : list string -> list string.
Hypothesis set_order_permutes : forall aliases, set_order aliases ≡ₚ aliases.

Lemma first_alias_none (normalized : gmap string Z) (aliases : list string) :
  first_alias normalized aliases = None <->
  Forall (fun a => normalized !! lower (strip a) = None) aliases.
Proof.
  induction aliases as [| a rest IH]; cbn [first_alias].
  - split; [constructor | reflexivity].
  - destruct (normalized !! lower (strip a)) as [idx |] eqn:Ha.
    + split; [discriminate |]. intros H. inversion H; congruence.
    + rewrite IH. split; [intros H; constructor; assumption |].
      intros H. inversion H; assumption.
Qed.

Lemma first_alias_unambiguous (normalized : gmap string Z) (aliases : list string) :
  unambiguous normalized aliases = true ->
  first_alias normalized (set_order aliases) = first_alias normalized aliases.
Proof.
  intros Hunamb.
  destruct (first_alias normalized aliases) as [[i x] |] eqn:Hwritten.
  - apply first_alias_in_header in Hwritten.
    destruct Hwritten as (Hx & a & Ha & ->).
    destruct (first_alias normalized (set_order aliases)) as [[j y] |] eqn:Hordered.
    + apply first_alias_in_header in Hordered.
      destruct Hordered as (Hy & b & Hb & ->).
      rewrite set_order_permutes in Hb.
      unfold unambiguous in Hunamb. rewrite forallb_forall in Hunamb.
      apply list_elem_of_In in Ha, Hb.
      specialize (Hunamb b Hb). rewrite forallb_forall in Hunamb.
      specialize (Hunamb a Ha). rewrite Hx, Hy in Hunamb.
      apply andb_prop in Hunamb. destruct Hunamb as [Hij Hab].
      apply Z.eqb_eq in Hij. apply String.eqb_eq in Hab. congruence.
    + apply first_alias_none in Hordered.
      rewrite set_order_permutes in Hordered.
      rewrite Forall_forall in Hordered. rewrite (Hordered a Ha) in Hx. discriminate.
  - apply first_alias_none. rewrite set_order_permutes.
    apply first_alias_none. exact Hwritten.
Qed.

Lemma foldl_ext_elem {A B} (f g : A -> B -> A) (l : list B) :
  (forall acc x, x ∈ l -> f acc x = g acc x) ->
  forall acc, foldl f acc l = foldl g acc l.
Proof.
  induction l as [| x l IH]; intros Hfg acc; [reflexivity |].
  cbn [foldl]. rewrite (Hfg acc x) by left.
  apply IH. intros acc' y Hy. apply Hfg. right. exact Hy.
Qed.

Lemma resolve_unambiguous (normalized : gmap string Z) :
  forallb (fun entry => unambiguous normalized (snd entry)) HEADER_ALIASES = true ->
  _resolve_header_indices set_order normalized =
  _resolve_header_indices as_written normalized.
Proof.
  intros Hall. unfold _resolve_header_indices.
  apply foldl_ext_elem. intros [resolved used] [canonical aliases] Hin.
  rewrite forallb_forall in Hall. apply list_elem_of_In in Hin.
  specialize (Hall _ Hin). cbn [snd] in Hall.
  rewrite (first_alias_unambiguous _ _ Hall). reflexivity.
Qed.

End order_independence.

(** *** The row-parsing scenario *)

(** C2 as stated fails: the parsed row of the scenario does not have the
    slug "mi-post". *)
Lemma row_parsing_scenario_slug_is_not_mi_post :
  ~ (exists row : gmap string pyval,
       outcome (run (_parse_rows as_written scenario_sheet SHEET_MAIN)
                    (init (fun _ => Ok None) "sheet-id" "contenidos" "indice_contenido"))
         = Ok [row] /\
       row !! "slug" = Some (VStr "mi-post") /\
       row !! "ejecutar" = Some (VStr "si") /\
       row !! "url" = Some (VStr "")).
Proof.
  intros (row & Hrow & Hslug & _).
  assert (H : match outcome (run (_parse_rows as_written scenario_sheet SHEET_MAIN)
                      (init (fun _ => Ok None) "sheet-id" "contenidos" "indice_contenido"))
              with
              | Ok [r] => r !! "slug"
              | _ => None
              end = Some (VStr "/mi-post")) by (vm_compute; reflexivity).
  rewrite Hrow, Hslug in H. discriminate H.
Qed.

(** C2, amended. In whatever order the alias sets are iterated, parsing the
    scenario's header row and data row gives one Logical Row, numbered 2,
    whose slug is "/mi-post" (the raw slug is trimmed and lower-cased, its
    leading slash kept), whose execution flag is "si" and whose derived url
    is the empty string. *)
Theorem row_parsing_scenario (set_order : list string -> list string)
    (self : GoogleSheetClient) :
  (forall aliases, set_order aliases ≡ₚ aliases) ->
  outcome (run (_parse_rows set_order scenario_sheet SHEET_MAIN) self) = Ok [scenario_row] /\
  scenario_row !! "row_number" = Some (VInt 2) /\
  scenario_row !! "slug" = Some (VStr "/mi-post") /\
  scenario_row !! "ejecutar" = Some (VStr "si") /\
  scenario_row !! "url" = Some (VStr "").
Proof.
  intros Hperm.
  destruct (run_parse_rows set_order self
              ["Título"; "Keyword Principal"; "Categoría"; "Ejecutar?"; "Slug"]
              [["Mi Post"; "clave x"; "Tecnología"; "si"; "/mi-post"]] SHEET_MAIN)
    as (self' & Hrun & _).
  unfold scenario_sheet. rewrite Hrun. unfold outcome, resolved_of. cbn [snd].
  rewrite (resolve_unambiguous set_order Hperm) by (vm_compute; reflexivity).
  split; [vm_compute; reflexivity |].
  split; [| split; [| split]]; vm_compute; reflexivity.
Qed.

Lemma row_parsing_scenario_witness :
  outcome (run (_parse_rows as_written scenario_sheet SHEET_MAIN)
               (init (fun _ => Ok None) "sheet-id" "contenidos" "indice_contenido"))
    = Ok [scenario_row] /\
  scenario_row !! "row_number" = Some (VInt 2) /\
  scenario_row !! "slug" = Some (VStr "/mi-post") /\
  scenario_row !! "ejecutar" = Some (VStr "si") /\
  scenario_row !! "url" = Some (VStr "").
Proof.
  apply (row_parsing_scenario as_written). intros aliases. reflexivity.
Defined.

(** *** Exact duplicates *)

(** C1 as stated fails: against an index holding a record with the slug
    "mi-post", the candidate slug "/blog/mi-post/" is no duplicate when
    title and keyword differ. *)
Lemma is_duplicate_path_slug_no_match :
  get_text mi_post_record "slug" = "mi-post" /\
  is_duplicate "Otro título" "otra clave" "/blog/mi-post/" [mi_post_record] = Ok false.
Proof. split; vm_compute; reflexivity. Qed.

Lemma is_duplicate_loop_slug_match (title_n keyword_n slug_n : string)
    (record : gmap string pyval) (before after : list (gmap string pyval)) :
  truthy slug_n = true ->
  get_text record "slug" = slug_n ->
  Forall slug_readable before ->
  is_duplicate_loop title_n keyword_n slug_n (before ++ record :: after) = Ok true.
Proof.
  intros Htruthy Hslug Hbefore.
  induction Hbefore as [| r before [s Hs] _ IH]; cbn [app is_duplicate_loop].
  - unfold recorded_slug_of. rewrite Hslug, Htruthy. cbn [mbind result_bind].
    rewrite Htruthy, String.eqb_refl. reflexivity.
  - rewrite Hs. cbn [mbind result_bind]. rewrite IH.
    repeat match goal with |- context [if ?b then _ else _] => destruct b end;
      reflexivity.
Qed.

(** C1, amended. [is_duplicate] returns true, whatever the titles and
    keywords are, when [extract_slug] of the candidate slug is non-empty
    and equal to the slug stored in a record of the index, and reading the
    slug of the records before it does not raise.  The stored slug of a
    record is compared as it is stored. *)
Theorem is_duplicate_slug_match (title keyword slug slug_normalized : string)
    (record : gmap string pyval) (before after : list (gmap string pyval)) :
  extract_slug slug = Ok slug_normalized ->
  truthy slug_normalized = true ->
  get_text record "slug" = slug_normalized ->
  Forall slug_readable before ->
  is_duplicate title keyword slug (before ++ record :: after) = Ok true.
Proof.
  intros Hslug Htruthy Hrecord Hbefore. unfold is_duplicate.
  rewrite Hslug. cbn [mbind result_bind].
  apply is_duplicate_loop_slug_match; assumption.
Qed.

Lemma is_duplicate_slug_match_witness :
  is_duplicate "Otro título" "otra clave" "https://example.com/blog/Mi-Post/"
    [mi_post_record] = Ok true /\
  is_duplicate "Otro título" "otra clave" " MI-POST "
    [mi_post_record] = Ok true.
Proof.
  split.
  - apply (is_duplicate_slug_match _ _ _ "mi-post" mi_post_record [] []);
      [vm_compute; reflexivity | reflexivity | vm_compute; reflexivity | constructor].
  - apply (is_duplicate_slug_match _ _ _ "mi-post" mi_post_record [] []);
      [vm_compute; reflexivity | reflexivity | vm_compute; reflexivity | constructor].
Defined.

(** *** Slug normalization *)

(** C3 fails on a value whose scheme is not in lower case: the first
    application lower-cases the whole value, the second one then reads it
    as a URL and keeps its last path segment. *)
Theorem extract_slug_uppercase_scheme_not_idempotent :
  extract_slug "HTTP://example.com/a/b" = Ok "http://example.com/a/b" /\
  extract_slug "http://example.com/a/b" = Ok "b" /\
  _derive_url "HTTP://example.com/a/b" = "HTTP://example.com/a/b".
Proof. repeat split; vm_compute; reflexivity. Qed.

Lemma lower_char_idem (c : ascii) : lower_char (lower_char c) = lower_char c.
Proof. destruct c as [[] [] [] [] [] [] [] []]; reflexivity. Qed.

Lemma isspace_lower_char (c : ascii) : isspace (lower_char c) = isspace c.
Proof. destruct c as [[] [] [] [] [] [] [] []]; reflexivity. Qed.

Lemma slash_lower_char (c : ascii) : Ascii.eqb (lower_char c) "/" = Ascii.eqb c "/".
Proof. destruct c as [[] [] [] [] [] [] [] []]; reflexivity. Qed.

Lemma lower_idem (s : string) : lower (lower s) = lower s.
Proof.
  induction s as [| c s IH]; [reflexivity |]. cbn. rewrite lower_char_idem, IH. reflexivity.
Qed.

Lemma truthy_lower (s : string) : truthy (lower s) = truthy s.
Proof. destruct s; reflexivity. Qed.

Lemma lstrip_lower (s : string) :
  lstrip_of isspace (lower s) = lower (lstrip_of isspace s).
Proof.
  induction s as [| c s IH]; [reflexivity |]. cbn.
  rewrite isspace_lower_char. destruct (isspace c); [exact IH | reflexivity].
Qed.

Lemma rstrip_lower (s : string) :
  rstrip_of isspace (lower s) = lower (rstrip_of isspace s).
Proof.
  induction s as [| c s IH]; [reflexivity |]. cbn [lower rstrip_of].
  rewrite IH, isspace_lower_char.
  destruct (rstrip_of isspace s); cbn [lower]; [destruct (isspace c) |]; reflexivity.
Qed.

Lemma strip_lower (s : string) : strip (lower s) = lower (strip s).
Proof. unfold strip. rewrite lstrip_lower, rstrip_lower. reflexivity. Qed.

Lemma has_slash_lower (s : string) : has_char "/" (lower s) = has_char "/" s.
Proof.
  induction s as [| c s IH]; [reflexivity |]. cbn. rewrite slash_lower_char, IH. reflexivity.
Qed.

Lemma has_char_lstrip (c : ascii) (p : ascii -> bool) (s : string) :
  has_char c s = false -> has_char c (lstrip_of p s) = false.
Proof.
  induction s as [| a s IH]; [reflexivity |]. cbn. intros H.
  apply orb_false_elim in H. destruct H as [Ha Hs].
  destruct (p a); [apply IH; exact Hs |]. cbn. rewrite Ha, Hs. reflexivity.
Qed.

Lemma has_char_rstrip (c : ascii) (p : ascii -> bool) (s : string) :
  has_char c s = false -> has_char c (rstrip_of p s) = false.
Proof.
  induction s as [| a s IH]; [reflexivity |]. cbn [has_char rstrip_of]. intros H.
  apply orb_false_elim in H. destruct H as [Ha Hs]. specialize (IH Hs).
  destruct (rstrip_of p s).
  - destruct (p a); [reflexivity |]. cbn. rewrite Ha. reflexivity.
  - cbn [has_char] in *. rewrite Ha, IH. reflexivity.
Qed.

Lemma prefix_has_char (c : ascii) (p s : string) :
  String.prefix p s = true -> has_char c p = true -> has_char c s = true.
Proof.
  revert s. induction p as [| a p IH]; intros s Hpre Hc; [discriminate Hc |].
  destruct s as [| b s]; [discriminate Hpre |]. cbn in Hpre.
  destruct (ascii_dec a b) as [-> | Hne]; [| discriminate Hpre].
  cbn in *. destruct (Ascii.eqb b c); [reflexivity |]. cbn in *.
  apply IH; assumption.
Qed.

Lemma no_slash_no_scheme (s : string) :
  has_char "/" s = false ->
  startswith s "http://" || startswith s "https://" = false.
Proof.
  intros Hs. unfold startswith.
  destruct (String.prefix "http://" s) eqn:H1.
  - rewrite (prefix_has_char "/" _ _ H1 eq_refl) in Hs. discriminate Hs.
  - destruct (String.prefix "https://" s) eqn:H2; [| reflexivity].
    rewrite (prefix_has_char "/" _ _ H2 eq_refl) in Hs. discriminate Hs.
Qed.

Lemma index_last {A} (l : list A) :
  Py.index l (-1) =
    match last l with
    | Some x => Ok x
    | None => Raise (Exn IndexError "list index out of range")
    end.
Proof.
  unfold Py.index, len. change (-1 <? 0)%Z with true. cbv iota.
  destruct l as [| x l]; [reflexivity |].
  assert (Hj : (Z.of_nat (length (x :: l)) + -1 = Z.of_nat (length l))%Z)
    by (cbn [length]; lia).
  rewrite Hj. destruct (Z.of_nat (length l) <? 0)%Z eqn:Hneg; [lia |].
  rewrite Nat2Z.id, last_lookup. cbn [length Nat.pred].
  destruct ((x :: l) !! length l) eqn:Hl; [reflexivity |].
  apply lookup_ge_None in Hl. cbn in Hl. lia.
Qed.

Lemma split_last_segment (sep : ascii) (s : string) :
  exists seg, last (split sep s) = Some seg /\ has_char sep seg = false.
Proof.
  induction s as [| c s (seg & Hlast & Hseg)]; cbn [split].
  - exists EmptyString. split; reflexivity.
  - destruct (Ascii.eqb c sep) eqn:Hc.
    + exists seg. split; [| exact Hseg].
      destruct (split sep s); [discriminate Hlast | exact Hlast].
    + destruct (split sep s) as [| h t]; [discriminate Hlast |].
      destruct t as [| h' t].
      * cbn in Hlast. injection Hlast as ->.
        exists (String c seg). split; [reflexivity |]. cbn. rewrite Hc, Hseg. reflexivity.
      * exists seg. split; [exact Hlast | exact Hseg].
Qed.

Lemma extract_slug_of_segment (seg : string) :
  has_char "/" seg = false ->
  extract_slug (lower (strip seg)) = Ok (lower (strip seg)).
Proof.
  intros Hseg. unfold extract_slug.
  destruct (truthy (lower (strip seg))) eqn:Htruthy; cbn [negb].
  2:{ destruct (lower (strip seg)); [reflexivity | discriminate Htruthy]. }
  rewrite strip_lower, strip_idem, Htruthy. cbn [negb].
  rewrite no_slash_no_scheme.
  - cbn [mbind result_bind]. rewrite strip_lower, strip_idem, lower_idem. reflexivity.
  - rewrite has_slash_lower. unfold strip.
    apply has_char_rstrip, has_char_lstrip. exact Hseg.
Qed.

(** X1. Apart from values whose scheme is written with capitals,
    [extract_slug] returns a fixed point of itself: when the test of the
    scheme gives the same answer on the trimmed value and on its lower-case
    form, a second application changes nothing. *)
Lemma extract_slug_idempotent_lower_scheme (value slug : string) :
  extract_slug value = Ok slug ->
  startswith (lower (strip value)) "http://" || startswith (lower (strip value)) "https://"
    = startswith (strip value) "http://" || startswith (strip value) "https://" ->
  extract_slug slug = Ok slug.
Proof.
  unfold extract_slug at 1. intros Hslug Hscheme.
  destruct (truthy value); cbn [negb] in Hslug; [| injection Hslug as <-; reflexivity].
  destruct (truthy (strip value)) eqn:Hraw; cbn [negb] in Hslug;
    [| injection Hslug as <-; reflexivity].
  destruct (startswith (strip value) "http://" || startswith (strip value) "https://")
    eqn:Hurl.
  - destruct (UrlParse.urlparse_path (strip value)) as [path | e];
      cbn [mbind result_bind] in Hslug; [| discriminate Hslug].
    rewrite index_last in Hslug.
    destruct (split_last_segment "/" (rstrip_of (is_char "/") path)) as (seg & Hlast & Hseg).
    rewrite Hlast in Hslug. cbn [mbind result_bind] in Hslug. injection Hslug as <-.
    apply extract_slug_of_segment. exact Hseg.
  - cbn [mbind result_bind] in Hslug. injection Hslug as <-.
    rewrite strip_idem. unfold extract_slug.
    rewrite truthy_lower, Hraw. cbn [negb].
    rewrite strip_lower, strip_idem, truthy_lower, Hraw. cbn [negb].
    rewrite Hscheme. cbn [mbind result_bind].
    rewrite strip_lower, strip_idem, lower_idem. reflexivity.
Qed.


(** *** The semantic stage *)

Lemma select_relevant_nonempty (candidate : gmap string pyval)
    (index_records : list (gmap string pyval)) :
  index_records <> [] <-> _select_relevant_index candidate index_records 25 <> [].
Proof.
  unfold _select_relevant_index.
  set (filtered := List.filter _ index_records).
  assert (Hsub : filtered <> [] -> index_records <> []).
  { subst filtered. destruct index_records; [intros H; exact H | discriminate]. }
  split.
  - intros Hne.
    assert (Hchosen : match filtered with [] => index_records | _ => filtered end <> []).
    { destruct filtered; [exact Hne | discriminate]. }
    destruct (match filtered with [] => index_records | _ => filtered end) as [| r l];
      [congruence | discriminate].
  - intros Hsel Hnil. apply Hsel. subst filtered. rewrite Hnil. reflexivity.
Qed.

Lemma run_extract_text (self : ContentGenerator) (r : response) :
  run (_extract_text r) self =
    match output_text r with
    | Ok text => (self, [], Ok text)
    | Raise _ =>
        (self, [Log ERROR "Formato de respuesta inesperado: %s"],
         Raise (Exn ValueError "No se pudo extraer texto de la respuesta del modelo."))
    end.
Proof.
  unfold _extract_text. eff_unfold. destruct r as [items]. unfold output_text.
  cbn [output].
  destruct items as [| [content |] items]; try reflexivity.
  cbn. destruct content as [| [text | refusal] content]; reflexivity.
Qed.

Section semantic_stage.

Variable json_loads : string -> option json.
Variable self : ContentGenerator.
Variable candidate : gmap string pyval.
Variable index_records : list (gmap string pyval).

(** Every path of [is_semantic_duplicate] once the relevant records are not
    empty. *)
Lemma run_is_semantic_duplicate :
  _select_relevant_index candidate index_records 25 <> [] ->
  run (is_semantic_duplicate json_loads candidate index_records) self =
    let req := semantic_request self candidate index_records in
    match client self req with
    | Raise _ =>
        (self, [OpenAICall req; Log ERROR "Error evaluando duplicado con OpenAI: %s"],
         Ok false)
    | Ok response =>
        match output_text response with
        | Raise _ =>
            (self, [OpenAICall req; Log ERROR "Formato de respuesta inesperado: %s"],
             Raise (Exn ValueError "No se pudo extraer texto de la respuesta del modelo."))
        | Ok raw_text =>
            match json_loads raw_text with
            | None =>
                (self,
                 [OpenAICall req; Log ERROR "Respuesta de duplicado no es JSON válido: %s"],
                 Ok false)
            | Some result =>
                match py_get result "duplicate" with
                | Raise e => (self, [OpenAICall req], Raise e)
                | Ok duplicate =>
                    (self,
                     OpenAICall req ::
                       (if bool_of duplicate
                        then [Log INFO "El modelo detectó duplicado: %s (coincidencia slug: %s)"]
                        else []),
                     Ok (bool_of duplicate))
                end
            end
        end
    end.
Proof.
  intros Hrel. unfold is_semantic_duplicate.
  unfold run at 1. unfold mbind at 1. unfold M_bind at 1. unfold get_self.
  cbv zeta. unfold semantic_request.
  destruct (_select_relevant_index candidate index_records 25) as [| rec recs] eqn:Hsel;
    [congruence |].
  set (request := duplicate_request self _).
  unfold mbind at 1. unfold M_bind at 1.
  unfold try_except, responses_create.
  unfold mbind at 1. unfold M_bind at 1.
  destruct (client self request) as [response | exc]; [| reflexivity].
  cbn [mret M_ret app].
  unfold mbind at 1. unfold M_bind at 1.
  pose proof (run_extract_text self response) as Hext. unfold run in Hext. rewrite Hext.
  destruct (output_text response) as [raw_text | e]; [| reflexivity].
  destruct (json_loads raw_text) as [result |]; [| reflexivity].
  eff_unfold. destruct (py_get result "duplicate") as [duplicate | e]; [| reflexivity].
  destruct (bool_of duplicate); reflexivity.
Qed.

End semantic_stage.

(** C5. When the duplicate-check call raises, or the text of its response
    is not JSON ([json.loads] raises [JSONDecodeError]),
    [is_semantic_duplicate] returns false: the request is followed by one
    error line in the log, and nothing is raised. *)
Theorem semantic_check_fails_open (json_loads : string -> option json)
    (self : ContentGenerator) (candidate : gmap string pyval)
    (index_records : list (gmap string pyval)) :
  index_records <> [] ->
  (exists exc, client self (semantic_request self candidate index_records) = Raise exc) \/
  (exists response raw_text,
     client self (semantic_request self candidate index_records) = Ok response /\
     output_text response = Ok raw_text /\
     json_loads raw_text = None) ->
  exists fmt,
    run (is_semantic_duplicate json_loads candidate index_records) self =
      (self,
       [OpenAICall (semantic_request self candidate index_records); Log ERROR fmt],
       Ok false).
Proof.
  intros Hrel Hfail. apply (select_relevant_nonempty candidate) in Hrel.
  rewrite run_is_semantic_duplicate by exact Hrel. cbv zeta.
  destruct Hfail as [[exc ->] | (response & raw_text & -> & -> & ->)];
    eexists; reflexivity.
Qed.

Lemma semantic_check_fails_open_witness :
  (exists fmt,
     run (is_semantic_duplicate (decoder_of []) gatos_candidate gatos_index)
         failing_generator =
       (failing_generator,
        [OpenAICall (semantic_request failing_generator gatos_candidate gatos_index);
         Log ERROR fmt],
        Ok false))
  /\
  (exists fmt,
     run (is_semantic_duplicate (decoder_of []) gatos_candidate gatos_index)
         (answering_generator "no es json") =
       (answering_generator "no es json",
        [OpenAICall
           (semantic_request (answering_generator "no es json") gatos_candidate gatos_index);
         Log ERROR fmt],
        Ok false)).
Proof.
  split.
  - apply semantic_check_fails_open.
    + unfold gatos_index. congruence.
    + left. eexists. reflexivity.
  - apply semantic_check_fails_open.
    + unfold gatos_index. congruence.
    + right. eexists. eexists. repeat split; reflexivity.
Defined.

(** C10. When the response text decodes to a JSON object, the result of
    [is_semantic_duplicate] is the truth value of its "duplicate" entry: a
    non-empty string (the string "false" too), a non-zero number, a
    non-empty list or object give true; a missing entry, null, zero and the
    empty ones give false; a boolean gives itself. *)
Theorem semantic_check_truthiness (json_loads : string -> option json)
    (self : ContentGenerator) (candidate : gmap string pyval)
    (index_records : list (gmap string pyval))
    (response : response) (raw_text : string) (items : list (string * json)) :
  index_records <> [] ->
  client self (semantic_request self candidate index_records) = Ok response ->
  output_text response = Ok raw_text ->
  json_loads raw_text = Some (JDict items) ->
  outcome (run (is_semantic_duplicate json_loads candidate index_records) self) =
    Ok match dict_lookup items "duplicate" with
       | None => false
       | Some JNull => false
       | Some (JBool b) => b
       | Some (JInt n) => negb (n =? 0)%Z
       | Some (JFloat f) => negb (PrimFloat.eqb f 0%float)
       | Some (JStr s) => negb (String.eqb s "")
       | Some (JList l) => negb (bool_decide (l = []))
       | Some (JDict d) => negb (bool_decide (d = []))
       end.
Proof.
  intros Hrel Hcall Htext Hloads. apply (select_relevant_nonempty candidate) in Hrel.
  rewrite run_is_semantic_duplicate by exact Hrel. cbv zeta.
  rewrite Hcall, Htext, Hloads. cbn [py_get outcome snd].
  destruct (dict_lookup items "duplicate") as [[| b | n | f | s | l | d] |];
    cbn [default from_option id bool_of]; try reflexivity.
  - destruct s; reflexivity.
  - destruct l; reflexivity.
  - destruct d; reflexivity.
Qed.

Lemma semantic_check_truthiness_witness :
  let answer := "{" ++ quoted "duplicate" ++ ": " ++ quoted "false" ++ "}" in
  outcome (run (is_semantic_duplicate
                  (decoder_of [(answer, JDict [("duplicate", JStr "false")])])
                  gatos_candidate gatos_index)
               (answering_generator answer))
  = Ok true.
Proof.
  intros answer.
  apply (semantic_check_truthiness _ _ _ _
           {| output := [Message [OutputText answer]] |} answer
           [("duplicate", JStr "false")]).
  - unfold gatos_index. congruence.
  - reflexivity.
  - reflexivity.
  - vm_compute. reflexivity.
Defined.

(** Outside the two failures that the stage absorbs, it raises: a response
    without a text part gives [ValueError], a decoded value that is not an
    object gives [AttributeError]. *)
Lemma semantic_check_raises (json_loads : string -> option json)
    (self : ContentGenerator) (candidate : gmap string pyval)
    (index_records : list (gmap string pyval)) (response : response) :
  index_records <> [] ->
  client self (semantic_request self candidate index_records) = Ok response ->
  match output_text response with
  | Raise _ =>
      outcome (run (is_semantic_duplicate json_loads candidate index_records) self)
      = Raise (Exn ValueError "No se pudo extraer texto de la respuesta del modelo.")
  | Ok raw_text =>
      match json_loads raw_text with
      | Some (JDict _) | None => True
      | Some _ =>
          outcome (run (is_semantic_duplicate json_loads candidate index_records) self)
          = Raise (Exn AttributeError "object has no attribute 'get'")
      end
  end.
Proof.
  intros Hrel Hcall. apply (select_relevant_nonempty candidate) in Hrel.
  rewrite run_is_semantic_duplicate by exact Hrel. cbv zeta. rewrite Hcall.
  destruct (output_text response) as [raw_text | e]; [| reflexivity].
  destruct (json_loads raw_text) as [[| b | n | f | s | l | d] |]; try exact I; reflexivity.
Qed.

(** *** The relevance filter *)






(** When the filter keeps no record, the whole index stands in for it. *)
Lemma select_relevant_fallback (candidate : gmap string pyval)
    (index_records : list (gmap string pyval)) :
  Forall (fun record =>
            is_relevant (lower (strip (get_text candidate "keyword")))
                        (lower (strip (get_text candidate "categoria"))) record = false)
         index_records ->
  _select_relevant_index candidate index_records 25 = map summary (take 25 index_records).
Proof.
  intros Hnone. unfold _select_relevant_index.
  assert (Hfiltered :
    List.filter (is_relevant (lower (strip (get_text candidate "keyword")))
                             (lower (strip (get_text candidate "categoria"))))
                index_records = []).
  { induction Hnone as [| record rest Hrec _ IH]; [reflexivity |].
    cbn [List.filter]. rewrite Hrec. exact IH. }
  rewrite Hfiltered. reflexivity.
Qed.




(** *** Validation of the generated payload *)

Lemma run_generate (json_loads : string -> option json) (self : ContentGenerator)
    (payload : gmap string pyval) :
  run (generate json_loads payload) self =
    let req := generate_request self (build_prompt payload) in
    match client self req with
    | Raise exc =>
        (self, [OpenAICall req; Log ERROR "Error al llamar a OpenAI: %s"], Raise exc)
    | Ok response =>
        match output_text response with
        | Raise _ =>
            (self, [OpenAICall req; Log ERROR "Formato de respuesta inesperado: %s"],
             Raise (Exn ValueError "No se pudo extraer texto de la respuesta del modelo."))
        | Ok content =>
            if negb (truthy content) then
              (self, [OpenAICall req],
               Raise (Exn ValueError "La respuesta del modelo está vacía."))
            else
              match json_loads content with
              | None =>
                  (self,
                   [OpenAICall req; Log ERROR "Respuesta del modelo no es JSON válido: %s"],
                   Raise (Exn ValueError "El modelo no devolvió JSON válido."))
              | Some parsed =>
                  match _validate_payload parsed with
                  | Ok _ => (self, [OpenAICall req], Ok parsed)
                  | Raise e => (self, [OpenAICall req], Raise e)
                  end
              end
        end
    end.
Proof.
  unfold generate. cbv zeta.
  unfold run at 1. unfold mbind at 1. unfold M_bind at 1. unfold get_self.
  unfold mbind at 1. unfold M_bind at 1.
  unfold try_except, responses_create.
  destruct (client self _) as [response | exc]; [| reflexivity].
  cbn [app].
  unfold mbind at 1. unfold M_bind at 1.
  pose proof (run_extract_text self response) as Hext. unfold run in Hext. rewrite Hext.
  destruct (output_text response) as [content | e]; [| reflexivity].
  destruct (truthy content); [| reflexivity]. cbn [negb].
  destruct (json_loads content) as [parsed |]; [| reflexivity].
  eff_unfold. destruct (_validate_payload parsed) as [[] | e]; reflexivity.
Qed.

Lemma validate_payload_dict (items : list (string * json)) :
  if payload_accepted items then _validate_payload (JDict items) = Ok tt
  else exists msg, _validate_payload (JDict items) = Raise (Exn ValueError msg).
Proof.
  unfold payload_accepted, _validate_payload, required_fields.
  cbn [missing_fields py_in forallb mbind result_bind py_get].
  destruct (dict_lookup items "title"); cbn [bool_decide decide_rel andb];
  destruct (dict_lookup items "meta_description");
  destruct (dict_lookup items "h1");
  destruct (dict_lookup items "content_html");
  destruct (dict_lookup items "faqs") as [faqs |];
  destruct (dict_lookup items "image_prompts") as [prompts |];
  cbn; eauto.
  destruct faqs as [| | | | | faqs |]; cbn; eauto.
  destruct (len faqs <? 5)%Z eqn:Hlt.
  - replace (5 <=? len faqs)%Z with false by lia. cbn. eauto.
  - replace (5 <=? len faqs)%Z with true by lia. cbn.
    destruct prompts as [| | | | | [| prompt prompts] |]; cbn; eauto.
Qed.

(** C8 as stated fails: a response whose five FAQ items carry no question
    and no answer is not the payload the contract asks for, and [generate]
    returns it. *)
Lemma generate_accepts_bare_faqs :
  spec_payload_valid bare_faqs_payload = false /\
  outcome (run (generate (decoder_of [("respuesta", JDict bare_faqs_payload)])
                  gatos_candidate)
               (answering_generator "respuesta"))
  = Ok (JDict bare_faqs_payload).
Proof. split; vm_compute; reflexivity. Qed.

(** C8, amended. When the response text decodes to a JSON object,
    [generate] raises a [ValueError] exactly when the object lacks one of
    title, meta_description, h1, content_html, faqs, image_prompts, or its
    faqs is not a list of at least five items, or its image_prompts is not a
    list with at least one item; otherwise it returns the decoded payload.
    The items of faqs are not inspected. *)
Theorem generate_validates_payload (json_loads : string -> option json)
    (self : ContentGenerator) (payload : gmap string pyval)
    (response : response) (content : string) (items : list (string * json)) :
  client self (generate_request self (build_prompt payload)) = Ok response ->
  output_text response = Ok content ->
  truthy content = true ->
  json_loads content = Some (JDict items) ->
  if payload_accepted items
  then outcome (run (generate json_loads payload) self) = Ok (JDict items)
  else exists msg,
         outcome (run (generate json_loads payload) self) = Raise (Exn ValueError msg).
Proof.
  intros Hcall Htext Hcontent Hloads.
  rewrite run_generate. cbv zeta. rewrite Hcall, Htext, Hcontent, Hloads. cbn [negb].
  pose proof (validate_payload_dict items) as Hvalid.
  destruct (payload_accepted items).
  - rewrite Hvalid. reflexivity.
  - destruct Hvalid as [msg ->]. exists msg. reflexivity.
Qed.

Lemma generate_validates_payload_witness :
  outcome (run (generate (decoder_of [("respuesta", JDict bare_faqs_payload)])
                  gatos_candidate)
               (answering_generator "respuesta"))
  = Ok (JDict bare_faqs_payload)
  /\
  exists msg,
    outcome (run (generate (decoder_of [("respuesta", JDict [("title", JStr "Gatos")])])
                    gatos_candidate)
                 (answering_generator "respuesta"))
    = Raise (Exn ValueError msg).
Proof.
  split.
  - apply (generate_validates_payload _ _ _
             {| output := [Message [OutputText "respuesta"]] |} "respuesta"
             bare_faqs_payload); reflexivity.
  - apply (generate_validates_payload _ _ _
             {| output := [Message [OutputText "respuesta"]] |} "respuesta"
             [("title", JStr "Gatos")]); reflexivity.
Defined.

(** ** Further properties of the helpers *)

Lemma extract_slug_idempotent_lower_scheme_witness :
  extract_slug "https://example.com/blog/Mi-Post/" = Ok "mi-post" /\
  extract_slug "mi-post" = Ok "mi-post".
Proof.
  assert (H : extract_slug "https://example.com/blog/Mi-Post/" = Ok "mi-post")
    by (vm_compute; reflexivity).
  split; [exact H |].
  apply (extract_slug_idempotent_lower_scheme "https://example.com/blog/Mi-Post/" "mi-post" H).
  vm_compute. reflexivity.
Defined.

(** X2. Whatever [extract_slug] returns is trimmed and in lower case:
    trimming it or lower-casing it again changes nothing. *)
Theorem extract_slug_normal_form (value slug : string) :
  extract_slug value = Ok slug ->
  strip slug = slug /\ lower slug = slug.
Proof.
  unfold extract_slug. intros Hslug.
  destruct (truthy value); cbn [negb] in Hslug;
    [| injection Hslug as <-; split; reflexivity].
  destruct (truthy (strip value)); cbn [negb] in Hslug;
    [| injection Hslug as <-; split; reflexivity].
  destruct (if startswith (strip value) "http://" || startswith (strip value) "https://"
            then _ else _) as [slug_candidate | e];
    cbn [mbind result_bind] in Hslug; [| discriminate Hslug].
  injection Hslug as <-. split.
  - rewrite strip_lower, strip_idem. reflexivity.
  - apply lower_idem.
Qed.

Lemma extract_slug_normal_form_witness :
  strip "mi post" = "mi post" /\ lower "mi post" = "mi post".
Proof.
  apply (extract_slug_normal_form "  Mi Post "). vm_compute. reflexivity.
Defined.

(** X3. The slug taken from a value that starts with http:// or https://
    holds no slash: it is one path segment. *)
Theorem extract_slug_of_url_has_no_slash (value slug : string) :
  startswith (strip value) "http://" || startswith (strip value) "https://" = true ->
  extract_slug value = Ok slug ->
  has_char "/" slug = false.
Proof.
  unfold extract_slug. intros Hurl Hslug.
  destruct (truthy value); cbn [negb] in Hslug; [| injection Hslug as <-; reflexivity].
  destruct (truthy (strip value)); cbn [negb] in Hslug;
    [| injection Hslug as <-; reflexivity].
  rewrite Hurl in Hslug.
  destruct (UrlParse.urlparse_path (strip value)) as [path | e];
    cbn [mbind result_bind] in Hslug; [| discriminate Hslug].
  rewrite index_last in Hslug.
  destruct (split_last_segment "/" (rstrip_of (is_char "/") path)) as (seg & Hlast & Hseg).
  rewrite Hlast in Hslug. cbn [mbind result_bind] in Hslug. injection Hslug as <-.
  rewrite has_slash_lower. unfold strip.
  apply has_char_rstrip, has_char_lstrip. exact Hseg.
Qed.

Lemma extract_slug_of_url_has_no_slash_witness :
  has_char "/" "b" = false.
Proof.
  apply (extract_slug_of_url_has_no_slash "https://example.com/a/B/?q=1#top" "b");
    vm_compute; reflexivity.
Defined.


Lemma rstrip_of_app_stripped (p : ascii -> bool) (c : ascii) (s : string) :
  p c = true -> rstrip_of p (s ++ String c EmptyString) = rstrip_of p s.
Proof.
  intros Hc. induction s as [| a s IH].
  - change ("" ++ String c "") with (String c ""). cbn [rstrip_of]. rewrite Hc. reflexivity.
  - change (String a s ++ String c "") with (String a (s ++ String c "")).
    cbn [rstrip_of]. rewrite IH. reflexivity.
Qed.

(** X5. On a base URL and a slug that are not empty, [build_post_url] puts
    one slash between them however many the base ends with or the slug
    starts with: one more slash on either side gives the same URL. *)
Theorem build_post_url_one_separator (base_url slug : string) :
  truthy base_url = true -> truthy slug = true ->
  build_post_url base_url slug =
    rstrip_of (is_char "/") base_url ++ "/" ++ lstrip_of (is_char "/") slug /\
  build_post_url (base_url ++ "/") slug = build_post_url base_url slug /\
  build_post_url base_url ("/" ++ slug) = build_post_url base_url slug.
Proof.
  intros Hbase Hslug. unfold build_post_url. rewrite Hbase, Hslug. cbn [negb orb].
  split; [reflexivity |]. split.
  - destruct base_url as [| c base_url]; [discriminate Hbase |]. cbn [String.append truthy negb orb].
    change (String c (base_url ++ "/")) with (String c base_url ++ "/").
    rewrite rstrip_of_app_stripped by reflexivity. reflexivity.
  - reflexivity.
Qed.

Lemma build_post_url_one_separator_witness :
  build_post_url "https://example.com/" "/mi-post" = "https://example.com/mi-post" /\
  build_post_url "https://example.com//" "/mi-post" = "https://example.com/mi-post" /\
  build_post_url "https://example.com/" "//mi-post" = "https://example.com/mi-post".
Proof.
  destruct (build_post_url_one_separator "https://example.com/" "/mi-post" eq_refl eq_refl)
    as (H1 & H2 & H3).
  split; [exact H1 |]. split.
  - change ("https://example.com//") with ("https://example.com/" ++ "/"). rewrite H2. exact H1.
  - change ("//mi-post") with ("/" ++ "/mi-post"). rewrite H3. exact H1.
Defined.

(** *** Chunks *)

Lemma chunked_loop_concat {A} (size : Z) (iterable : list A) :
  forall chunk, concat (chunked_loop size chunk iterable) = (chunk ++ iterable)%list.
Proof.
  induction iterable as [| item rest IH]; intros chunk; cbn [chunked_loop].
  - destruct chunk; [reflexivity |]. cbn. rewrite !app_nil_r. reflexivity.
  - destruct (len (chunk ++ [item]) =? size)%Z.
    + cbn [concat]. rewrite IH. cbn. rewrite <- app_assoc. reflexivity.
    + rewrite IH. rewrite <- app_assoc. reflexivity.
Qed.

(** With a size that no chunk can reach, everything is yielded at the end,
    as one chunk. *)
Lemma chunked_loop_unreachable {A} (size : Z) (iterable : list A) :
  forall chunk,
    (size <= len chunk)%Z ->
    chunked_loop size chunk iterable =
      match (chunk ++ iterable)%list with
      | [] => []
      | whole => [whole]
      end.
Proof.
  induction iterable as [| item rest IH]; intros chunk Hsize; cbn [chunked_loop].
  - rewrite app_nil_r. destruct chunk; reflexivity.
  - assert (Hgrow : len (chunk ++ [item]) = (len chunk + 1)%Z).
    { unfold len. rewrite length_app. cbn. lia. }
    destruct (len (chunk ++ [item]) =? size)%Z eqn:Heq; [lia |].
    rewrite IH by lia. rewrite <- app_assoc. reflexivity.
Qed.

Lemma chunked_loop_step {A} (n : nat) (iterable : list A) :
  forall chunk : list A,
    (length chunk < n)%nat ->
    chunked_loop (Z.of_nat n) chunk iterable =
      if (length chunk + length iterable <? n)%nat then
        match (chunk ++ iterable)%list with
        | [] => []
        | whole => [whole]
        end
      else (chunk ++ take (n - length chunk) iterable)%list
             :: chunked_loop (Z.of_nat n) [] (drop (n - length chunk) iterable).
Proof.
  induction iterable as [| item rest IH]; intros chunk Hlen; cbn [chunked_loop].
  - cbn [length]. replace (length chunk + 0 <? n)%nat with true
      by (symmetry; apply Nat.ltb_lt; lia).
    rewrite app_nil_r. destruct chunk; reflexivity.
  - assert (Hgrow : length (chunk ++ [item]) = S (length chunk)).
    { rewrite length_app. cbn. lia. }
    unfold len. rewrite Hgrow.
    destruct (Z.of_nat (S (length chunk)) =? Z.of_nat n)%Z eqn:Hfull.
    + apply Z.eqb_eq, Nat2Z.inj in Hfull.
      assert (Hn : n = S (length chunk)) by (symmetry; exact Hfull).
      replace (length chunk + length (item :: rest) <? n)%nat with false
        by (symmetry; apply Nat.ltb_ge; cbn [length]; lia).
      replace (n - length chunk)%nat with 1%nat by lia.
      cbn [take drop]. rewrite take_0, drop_0. reflexivity.
    + apply Z.eqb_neq in Hfull.
      assert (Hne : n <> S (length chunk)) by (intros ->; apply Hfull; reflexivity).
      rewrite IH by (rewrite Hgrow; lia). rewrite Hgrow. cbn [length].
      replace (S (length chunk) + length rest)%nat
        with (length chunk + S (length rest))%nat by lia.
      destruct (length chunk + S (length rest) <? n)%nat eqn:Hshort.
      * rewrite <- app_assoc. reflexivity.
      * replace (n - length chunk)%nat with (S (n - S (length chunk))) by lia.
        cbn [take drop]. rewrite <- app_assoc. reflexivity.
Qed.

Lemma chunked_loop_batched {A} (n : nat) :
  (0 < n)%nat ->
  forall (fuel : nat) (items : list A),
    (length items < fuel)%nat ->
    chunked_loop (Z.of_nat n) [] items = batched_updates_loop fuel items n.
Proof.
  intros Hn. induction fuel as [| fuel IH]; intros items Hfuel; [lia |].
  rewrite chunked_loop_step by (cbn; lia). cbn [length app batched_updates_loop].
  rewrite Nat.add_0_l, Nat.sub_0_r.
  destruct (length items <? n)%nat eqn:Hshort.
  - apply Nat.ltb_lt in Hshort. rewrite take_ge by lia.
    destruct items as [| item items]; [reflexivity |].
    rewrite drop_ge by lia.
    destruct fuel; cbn [batched_updates_loop]; [reflexivity | rewrite take_nil; reflexivity].
  - apply Nat.ltb_ge in Hshort.
    destruct (take n items) as [| x chunk] eqn:Htake.
    + destruct items; [cbn in Hshort; lia |].
      destruct n; [lia | discriminate Htake].
    + rewrite <- Htake. f_equal. apply IH. rewrite length_drop. lia.
Qed.

Lemma batched_updates_loop_full {A} (size : nat) :
  forall (fuel : nat) (items : list A) (i : nat) (chunk : list A),
    batched_updates_loop fuel items size !! i = Some chunk ->
    (S i < length (batched_updates_loop fuel items size))%nat ->
    length chunk = size.
Proof.
  induction fuel as [| fuel IH]; intros items i chunk Hi Hnext; [discriminate Hi |].
  cbn [batched_updates_loop] in *.
  destruct (take size items) as [| x first] eqn:Htake; [discriminate Hi |].
  destruct i as [| i].
  - cbn in Hi. injection Hi as <-. cbn [length] in Hnext.
    destruct fuel as [| fuel]; [cbn in Hnext; lia |].
    cbn [batched_updates_loop] in Hnext.
    destruct (take size (drop size items)) eqn:Hrest; [cbn in Hnext; lia |].
    rewrite <- Htake, length_take.
    destruct (decide (size <= length items)%nat) as [Hle | Hgt]; [lia |].
    rewrite drop_ge in Hrest by lia. rewrite take_nil in Hrest. discriminate Hrest.
  - cbn in Hi. cbn [length] in Hnext. apply (IH _ _ _ Hi). lia.
Qed.

(** X6. For a positive size, [chunked] cuts the items into consecutive
    chunks: put end to end they give the items back, none is empty or longer
    than the size, and every chunk before the last has exactly the size. *)
Theorem chunked_partition {A} (iterable : list A) (n : nat) :
  (0 < n)%nat ->
  concat (chunked iterable (Z.of_nat n)) = iterable /\
  forall (i : nat) (chunk : list A),
    chunked iterable (Z.of_nat n) !! i = Some chunk ->
    (0 < length chunk <= n)%nat /\
    ((S i < length (chunked iterable (Z.of_nat n)))%nat -> length chunk = n).
Proof.
  intros Hn. unfold chunked. split.
  - apply chunked_loop_concat.
  - intros i chunk Hi.
    rewrite (chunked_loop_batched n Hn (S (length iterable))) in * by lia.
    destruct (batched_updates_loop_concat n Hn (S (length iterable)) iterable ltac:(lia))
      as [_ Hall].
    split.
    + rewrite Forall_forall in Hall. apply Hall.
      apply list_elem_of_lookup. exists i. exact Hi.
    + intros Hnext. apply (batched_updates_loop_full _ _ _ _ _ Hi Hnext).
Qed.

Lemma chunked_partition_witness :
  concat (chunked [1; 2; 3; 4; 5]%Z 2%Z) = [1; 2; 3; 4; 5]%Z /\
  forall (i : nat) (chunk : list Z),
    chunked [1; 2; 3; 4; 5]%Z 2%Z !! i = Some chunk ->
    (0 < length chunk <= 2)%nat /\
    ((S i < length (chunked [1; 2; 3; 4; 5]%Z 2%Z))%nat -> length chunk = 2%nat).
Proof. apply (chunked_partition [1; 2; 3; 4; 5]%Z 2). lia. Defined.

(** X7. For a positive size the generator [chunked] and the slicing loop
    [_batched_updates] yield the same chunks. *)
Theorem chunked_agrees_with_batched_updates {A} (items : list A) (n : nat) :
  (0 < n)%nat ->
  chunked items (Z.of_nat n) = _batched_updates items n.
Proof.
  intros Hn. unfold chunked, _batched_updates.
  apply chunked_loop_batched; [exact Hn | lia].
Qed.

Lemma chunked_agrees_with_batched_updates_witness :
  chunked ["a"; "b"; "c"] 2%Z = _batched_updates ["a"; "b"; "c"] 2.
Proof. apply (chunked_agrees_with_batched_updates ["a"; "b"; "c"] 2). lia. Defined.

(** X8. With a size of zero or less the two differ: [chunked] never fills a
    chunk and yields all the items as one chunk at the end, while
    [_batched_updates] with size zero yields nothing. *)
Theorem chunked_nonpositive_size {A} (items : list A) (size : Z) :
  (size <= 0)%Z ->
  chunked items size = match items with [] => [] | _ => [items] end /\
  _batched_updates items 0 = [].
Proof.
  intros Hsize. split.
  - unfold chunked. rewrite chunked_loop_unreachable by (unfold len; cbn; lia).
    destruct items; reflexivity.
  - reflexivity.
Qed.

Lemma chunked_nonpositive_size_witness :
  chunked ["a"; "b"; "c"] 0%Z = [["a"; "b"; "c"]] /\
  _batched_updates ["a"; "b"; "c"] 0 = [].
Proof. apply (chunked_nonpositive_size ["a"; "b"; "c"] 0%Z). lia. Defined.

(** ** Further properties of the spreadsheet client *)

(** X9. For a positive size, [_batched_updates] cuts the updates into
    consecutive chunks that give the updates back, end to end; no chunk is
    empty or longer than the size, and only the last one may be shorter. *)
Theorem batched_updates_partition {A} (items : list A) (size : nat) :
  (0 < size)%nat ->
  concat (_batched_updates items size) = items /\
  forall (i : nat) (chunk : list A),
    _batched_updates items size !! i = Some chunk ->
    (0 < length chunk <= size)%nat /\
    ((S i < length (_batched_updates items size))%nat -> length chunk = size).
Proof.
  intros Hsize. destruct (batched_updates_spec items size Hsize) as [Hcat Hall].
  split; [exact Hcat |]. intros i chunk Hi. split.
  - rewrite Forall_forall in Hall. apply Hall.
    apply list_elem_of_lookup. exists i. exact Hi.
  - intros Hnext. unfold _batched_updates in *.
    apply (batched_updates_loop_full _ _ _ _ _ Hi Hnext).
Qed.

Lemma batched_updates_partition_witness :
  concat (_batched_updates [(2, "hecho"); (3, "error"); (4, "hecho")]%Z 2)
    = [(2, "hecho"); (3, "error"); (4, "hecho")]%Z /\
  forall (i : nat) (chunk : list (Z * string)),
    _batched_updates [(2, "hecho"); (3, "error"); (4, "hecho")]%Z 2 !! i = Some chunk ->
    (0 < length chunk <= 2)%nat /\
    ((S i < length (_batched_updates [(2, "hecho"); (3, "error"); (4, "hecho")]%Z 2))%nat ->
     length chunk = 2%nat).
Proof.
  apply (batched_updates_partition [(2, "hecho"); (3, "error"); (4, "hecho")]%Z 2). lia.
Defined.

(** *** Column names *)

Lemma code_chr (n : Z) : (0 <= n < 256)%Z -> Z.of_N (code (chr n)) = n.
Proof.
  intros Hn. unfold code, chr. rewrite N_ascii_embedding by lia. lia.
Qed.

Lemma isupper_chr (r : Z) : (0 <= r < 26)%Z -> isupper (chr (65 + r)) = true.
Proof.
  intros Hr. unfold isupper. pose proof (code_chr (65 + r) ltac:(lia)) as Hcode.
  apply andb_true_intro. split; apply N.leb_le; lia.
Qed.

Lemma column_letter_loop_number (fuel : nat) :
  forall (current : Z) (result : string),
    (0 <= current)%Z -> (Z.to_nat current <= fuel)%nat ->
    column_number (column_letter_loop fuel current result)
      = column_number_from current result /\
    (str_forall isupper result = true ->
     str_forall isupper (column_letter_loop fuel current result) = true) /\
    ((0 < current)%Z \/ truthy result = true ->
     truthy (column_letter_loop fuel current result) = true).
Proof.
  induction fuel as [| fuel IH]; intros current result Hcur Hfuel.
  - assert (current = 0%Z) by lia. subst current. cbn [column_letter_loop].
    repeat split; [tauto | intros [H | H]; [lia | exact H]].
  - cbn [column_letter_loop]. destruct (current >? 0)%Z eqn:Hpos.
    + assert (Hr : (0 <= (current - 1) mod 26 < 26)%Z) by (apply Z.mod_pos_bound; lia).
      assert (Hq : (0 <= (current - 1) / 26)%Z) by (apply Z.div_pos; lia).
      assert (Hlt : ((current - 1) / 26 < current)%Z)
        by (apply Z.div_lt_upper_bound; lia).
      destruct (IH ((current - 1) / 26)%Z
                  (String (chr (65 + (current - 1) mod 26)) result) Hq ltac:(lia))
        as (Hnum & Hupper & Htruthy).
      split; [| split].
      * rewrite Hnum. cbn [column_number_from].
        rewrite code_chr by lia. f_equal.
        pose proof (Z.div_mod (current - 1) 26 ltac:(lia)). lia.
      * intros Hres. apply Hupper. cbn [str_forall].
        rewrite isupper_chr by lia. exact Hres.
      * intros _. apply Htruthy. right. reflexivity.
    + assert (current = 0%Z) by lia. subst current.
      repeat split; [tauto | intros [H | H]; [lia | exact H]].
Qed.

(** X10. [_column_letter] names the column of a zero-based index in
    bijective base 26: the name is not empty, holds capital letters only
    and denotes the index plus one, so that two different indices never
    get the same name. *)
Theorem column_letter_round_trip (index : Z) :
  (0 <= index)%Z ->
  column_number (_column_letter index) = (index + 1)%Z /\
  str_forall isupper (_column_letter index) = true /\
  truthy (_column_letter index) = true /\
  forall other : Z,
    (0 <= other)%Z -> _column_letter other = _column_letter index -> other = index.
Proof.
  assert (Hnumber : forall i : Z, (0 <= i)%Z ->
            column_number (_column_letter i) = (i + 1)%Z /\
            str_forall isupper (_column_letter i) = true /\
            truthy (_column_letter i) = true).
  { intros i Hi. unfold _column_letter.
    destruct (i <? 0)%Z eqn:Hneg; [lia |].
    destruct (column_letter_loop_number (Z.to_nat (i + 1)) (i + 1) "" ltac:(lia) ltac:(lia))
      as (Hnum & Hupper & Htruthy).
    rewrite Htruthy by (left; lia).
    split; [exact Hnum | split; [apply Hupper; reflexivity | apply Htruthy; left; lia]]. }
  intros Hindex. destruct (Hnumber index Hindex) as (Hnum & Hupper & Htruthy).
  repeat split; try assumption.
  intros other Hother Heq. destruct (Hnumber other Hother) as (Hnum' & _).
  rewrite Heq, Hnum in Hnum'. lia.
Qed.

Lemma column_letter_round_trip_witness :
  column_number (_column_letter 27) = 28%Z /\
  str_forall isupper (_column_letter 27) = true /\
  truthy (_column_letter 27) = true /\
  forall other : Z,
    (0 <= other)%Z -> _column_letter other = _column_letter 27 -> other = 27%Z.
Proof. apply (column_letter_round_trip 27). lia. Defined.

(** *** The header mapping *)











(** *** Exact duplicates, as a disjunction over the index *)

Lemma is_duplicate_loop_existsb (title_n keyword_n slug_n : string)
    (index_records : list (gmap string pyval)) :
  Forall slug_readable index_records ->
  is_duplicate_loop title_n keyword_n slug_n index_records =
    Ok (existsb (record_matches title_n keyword_n slug_n) index_records).
Proof.
  induction 1 as [| record rest [s Hs] _ IH]; [reflexivity |].
  cbn [is_duplicate_loop existsb]. unfold record_matches at 1.
  rewrite Hs. cbn [mbind result_bind]. rewrite IH.
  destruct (truthy slug_n && truthy s && String.eqb s slug_n); [reflexivity |].
  destruct (truthy (lower (strip (get_text record "titulo")))
            && String.eqb (lower (strip (get_text record "titulo"))) title_n);
    [reflexivity |].
  destruct (truthy keyword_n && truthy (lower (strip (get_text record "keyword")))
            && String.eqb (lower (strip (get_text record "keyword"))) keyword_n);
    reflexivity.
Qed.



(** X15. An empty value never counts as a match: a candidate whose title,
    keyword and slug are all blank is a duplicate of nothing, and a record
    whose title, keyword, slug and url are all blank matches no
    candidate. *)
Theorem is_duplicate_ignores_empty_values (title keyword slug slug_normalized : string)
    (index_records : list (gmap string pyval)) :
  extract_slug slug = Ok slug_normalized ->
  Forall slug_readable index_records ->
  (strip title = "" /\ strip keyword = "" /\ strip slug = "" \/
   Forall (fun record =>
             strip (get_text record "titulo") = "" /\
             strip (get_text record "keyword") = "" /\
             get_text record "slug" = "" /\ strip (get_text record "url") = "")
          index_records) ->
  is_duplicate title keyword slug index_records = Ok false.
Proof.
  intros Hextract Hreadable Hempty. unfold is_duplicate.
  rewrite Hextract. cbn [mbind result_bind].
  rewrite is_duplicate_loop_existsb by exact Hreadable.
  f_equal. apply not_true_is_false. rewrite existsb_exists.
  intros (record & Hin & Hmatch). unfold record_matches in Hmatch.
  destruct Hempty as [(Htitle & Hkeyword & Hslug_empty) | Hrecords].
  - assert (Hslug_n : slug_normalized = "").
    { unfold extract_slug in Hextract.
      destruct (truthy slug); cbn [negb] in Hextract; [| congruence].
      rewrite Hslug_empty in Hextract. cbn in Hextract. congruence. }
    rewrite Hslug_n, Htitle, Hkeyword in Hmatch. cbn [lower truthy andb orb] in Hmatch.
    destruct (lower (strip (get_text record "titulo"))); cbn in Hmatch; discriminate Hmatch.
  - rewrite Forall_forall in Hrecords. apply list_elem_of_In in Hin.
    destruct (Hrecords record Hin) as (Htitle & Hkeyword & Hrslug & Hurl).
    unfold recorded_slug_of, extract_slug in Hmatch.
    rewrite Htitle, Hkeyword, Hrslug, Hurl in Hmatch.
    cbn [lower truthy andb orb negb] in Hmatch.
    destruct (truthy (get_text record "url")); cbn in Hmatch;
      rewrite ?andb_false_r in Hmatch; discriminate Hmatch.
Qed.

Lemma is_duplicate_ignores_empty_values_witness :
  is_duplicate "  " "" " " [mi_post_record; ∅] = Ok false.
Proof.
  apply (is_duplicate_ignores_empty_values _ _ _ "").
  - vm_compute. reflexivity.
  - repeat constructor; eexists; vm_compute; reflexivity.
  - left. repeat split; reflexivity.
Defined.

(** *** Reading the sheets and writing back *)

Lemma run_parse_rows_state (set_order : list string -> list string)
    (self : GoogleSheetClient) (header_row : list string)
    (data_rows : list (list string)) (sheet_type : string) :
  run (_parse_rows set_order (header_row :: data_rows) sheet_type) self =
    ((if String.eqb sheet_type SHEET_MAIN
      then with_main_header set_order self header_row
      else with_index_header set_order self header_row),
     [],
     parse_data_rows (resolved_of set_order header_row) (normalize_header header_row)
       (enumerate 2 data_rows)).
Proof.
  unfold _parse_rows, resolved_of, with_main_header, with_index_header.
  destruct (_resolve_header_indices set_order (normalize_header header_row))
    as [resolved used].
  unfold _record_headers. eff_unfold. cbv beta zeta. cbn [fst snd].
  destruct (String.eqb sheet_type SHEET_MAIN); reflexivity.
Qed.

Lemma get_index_records_frame (set_order : list string -> list string)
    (self : GoogleSheetClient) :
  exists self' evs r,
    run (get_index_records set_order) self = (self', evs, r) /\
    _main_header_indices self' = _main_header_indices self /\
    _main_normalized_header self' = _main_normalized_header self /\
    _main_header_aliases self' = _main_header_aliases self /\
    _main_header_length self' = _main_header_length self.
Proof.
  unfold get_index_records.
  unfold run at 1. unfold mbind at 1. unfold M_bind at 1. unfold get_self.
  unfold mbind at 1. unfold M_bind at 1.
  pose proof (run_fetch_sheet_values self (index_sheet_name self)) as Hf.
  cbv zeta in Hf. unfold run in Hf. rewrite Hf.
  destruct (_service self _) as [[[| header_row data_rows] |] | e];
    cbn [default from_option id]; cbv beta iota.
  - do 3 eexists. split; [reflexivity |]. repeat split; reflexivity.
  - pose proof (run_parse_rows_state set_order self header_row data_rows SHEET_INDEX) as Hp.
    unfold run in Hp. rewrite Hp.
    destruct (parse_data_rows _ _ _); do 3 eexists;
      (split; [reflexivity |]); repeat split; reflexivity.
  - do 3 eexists. split; [reflexivity |]. repeat split; reflexivity.
  - destruct (is_class HttpError e); do 3 eexists;
      (split; [reflexivity |]); repeat split; reflexivity.
Qed.

Lemma get_rows_to_process_frame (set_order : list string -> list string)
    (self : GoogleSheetClient) :
  exists self' evs r,
    run (get_rows_to_process set_order) self = (self', evs, r) /\
    _index_header_indices self' = _index_header_indices self /\
    _index_normalized_header self' = _index_normalized_header self /\
    _index_header_aliases self' = _index_header_aliases self /\
    _index_header_length self' = _index_header_length self.
Proof.
  unfold get_rows_to_process.
  unfold run at 1. unfold mbind at 1. unfold M_bind at 1. unfold get_self.
  unfold mbind at 1. unfold M_bind at 1.
  pose proof (run_fetch_sheet_values self (main_sheet_name self)) as Hf.
  cbv zeta in Hf. unfold run in Hf. rewrite Hf.
  destruct (_service self _) as [[[| header_row data_rows] |] | e];
    cbn [default from_option id]; cbv beta iota.
  - do 3 eexists. split; [reflexivity |]. repeat split; reflexivity.
  - unfold mbind at 1. unfold M_bind at 1.
    pose proof (run_parse_rows_state set_order self header_row data_rows SHEET_MAIN) as Hp.
    unfold run in Hp. rewrite Hp.
    destruct (parse_data_rows _ _ _); do 3 eexists;
      (split; [reflexivity |]); repeat split; reflexivity.
  - do 3 eexists. split; [reflexivity |]. repeat split; reflexivity.
  - destruct (is_class HttpError e); do 3 eexists;
      (split; [reflexivity |]); repeat split; reflexivity.
Qed.

(** X16. The two header mappings are kept apart: reading the index sheet
    leaves what the client knows of the main sheet's header as it was,
    whatever the service answers, and reading the main sheet leaves what it
    knows of the index sheet's header as it was. *)
Theorem sheet_reads_keep_the_other_header (set_order : list string -> list string)
    (self : GoogleSheetClient) :
  (let self' := fst (fst (run (get_index_records set_order) self)) in
   _main_header_indices self' = _main_header_indices self /\
   _main_normalized_header self' = _main_normalized_header self /\
   _main_header_aliases self' = _main_header_aliases self /\
   _main_header_length self' = _main_header_length self)
  /\
  (let self' := fst (fst (run (get_rows_to_process set_order) self)) in
   _index_header_indices self' = _index_header_indices self /\
   _index_normalized_header self' = _index_normalized_header self /\
   _index_header_aliases self' = _index_header_aliases self /\
   _index_header_length self' = _index_header_length self).
Proof.
  split.
  - destruct (get_index_records_frame set_order self) as (self' & evs & r & -> & H).
    exact H.
  - destruct (get_rows_to_process_frame set_order self) as (self' & evs & r & -> & H).
    exact H.
Qed.




(** *** The auxiliary columns *)

Lemma run_get_main_column_index_loaded (set_order : list string -> list string)
    (self : GoogleSheetClient) (key : string) :
  _main_normalized_header self <> ∅ ->
  run (_get_main_column_index set_order key) self =
    (self, [], Ok (column_for set_order (_main_normalized_header self) key)).
Proof.
  intros Hloaded. unfold _get_main_column_index, column_for.
  destruct (truthy (lower (strip key))); cbn [negb]; [| reflexivity].
  unfold load_main_header. eff_unfold. cbv beta iota zeta.
  rewrite bool_decide_eq_false_2 by exact Hloaded. cbn [negb]. cbv beta iota zeta.
  rewrite bool_decide_eq_false_2 by exact Hloaded. reflexivity.
Qed.

Lemma row_updates_cons (set_order : list string -> list string) (self : GoogleSheetClient)
    (row_number : Z) (key value : string) (data : list (string * string)) :
  row_updates set_order self row_number ((key, value) :: data) =
    match column_for set_order (_main_normalized_header self) key with
    | Some idx =>
        (main_sheet_name self ++ "!" ++ _column_letter idx ++ pretty row_number, [[value]])
        :: row_updates set_order self row_number data
    | None => row_updates set_order self row_number data
    end.
Proof.
  unfold row_updates. cbn.
  destruct (column_for set_order (_main_normalized_header self) key); reflexivity.
Qed.

Lemma run_collect_updates_loaded (set_order : list string -> list string)
    (self : GoogleSheetClient) (row_number : Z) (data : list (string * string)) :
  _main_normalized_header self <> ∅ ->
  exists logs,
    run (collect_updates set_order row_number data) self =
      (self, logs, Ok (row_updates set_order self row_number data)) /\
    sheets_calls logs = [].
Proof.
  intros Hloaded. induction data as [| [key value] data (logs & Hrun & Hlogs)].
  - exists []. split; reflexivity.
  - cbn [collect_updates]. unfold run in *. unfold mbind at 1. unfold M_bind at 1.
    pose proof (run_get_main_column_index_loaded set_order self key Hloaded) as Hidx.
    unfold run in Hidx. rewrite Hidx. rewrite row_updates_cons.
    destruct (column_for set_order (_main_normalized_header self) key) as [idx |].
    + eff_unfold. rewrite Hrun. eexists. split; [reflexivity |].
      cbn [app]. rewrite app_nil_r. exact Hlogs.
    + eff_unfold. rewrite Hrun. eexists. split; [reflexivity | exact Hlogs].
Qed.

(** X18. Once the header of the main sheet is loaded, [update_main_row]
    reads nothing and writes at most once: the items of the data whose key
    has a column go, in order, into one batch request, each to the cell of
    its column in the given row; items whose key has no column are left
    out, and when none is left no request is sent at all.  The client is
    unchanged and nothing is raised if the service fails with [HttpError]
    only. *)
Theorem update_main_row_loaded (set_order : list string -> list string)
    (self : GoogleSheetClient) (row_number : Z) (data : list (string * string)) :
  _main_header_indices self <> ∅ ->
  _main_normalized_header self <> ∅ ->
  fails_with_HttpError_only (_service self) ->
  exists evs,
    run (update_main_row set_order row_number data) self = (self, evs, Ok tt) /\
    sheets_calls evs =
      match row_updates set_order self row_number data with
      | [] => []
      | updates => [values_batchUpdate (spreadsheet_id self) "RAW" updates]
      end.
Proof.
  intros Hindices Hloaded Hsvc. unfold update_main_row.
  destruct data as [| item data]; [exists []; split; reflexivity |].
  destruct (run_collect_updates_loaded set_order self row_number (item :: data) Hloaded)
    as (logs & Hcollect & Hlogs).
  unfold load_main_header. unfold run in *.
  unfold mbind at 1. unfold M_bind at 1. unfold get_self.
  rewrite bool_decide_eq_false_2 by exact Hindices. cbn [negb].
  eff_unfold. rewrite bool_decide_eq_false_2 by exact Hindices.
  rewrite Hcollect.
  destruct (row_updates set_order self row_number (item :: data)) as [| update updates].
  - exists logs. split; [rewrite app_nil_r; reflexivity | exact Hlogs].
  - destruct (_service self _) as [resp | e] eqn:Hcall.
    + eexists. split; [reflexivity |].
      rewrite !sheets_calls_app, Hlogs. reflexivity.
    + apply Hsvc in Hcall. unfold is_class.
      rewrite bool_decide_eq_true_2 by exact Hcall.
      eexists. split; [reflexivity |].
      rewrite !sheets_calls_app, Hlogs. reflexivity.
Qed.

Lemma update_main_row_loaded_witness :
  let self := with_main_header as_written flag_sheet_client (hd [] flag_sheet) in
  exists evs,
    run (update_main_row as_written 3 [("slug", "gatos"); ("post_id", "17")]) self
      = (self, evs, Ok tt) /\
    sheets_calls evs =
      match row_updates as_written self 3 [("slug", "gatos"); ("post_id", "17")] with
      | [] => []
      | updates => [values_batchUpdate (spreadsheet_id self) "RAW" updates]
      end.
Proof.
  intros self. apply update_main_row_loaded.
  - intros H. apply (f_equal (fun m : gmap string Z => m !! "slug")) in H.
    vm_compute in H. discriminate H.
  - intros H. apply (f_equal (fun m : gmap string Z => m !! "slug")) in H.
    vm_compute in H. discriminate H.
  - intros r e H. discriminate H.
Defined.







(** ** Further properties of the content generator *)

(** X21. The semantic check leaves the generator as it was and sends at most
    one request: none when the index is empty, and then the answer is False
    with nothing logged; otherwise exactly the request built from the
    candidate and the selected records, whatever the client and the decoder
    do with it. *)
Theorem semantic_check_requests (json_loads : string -> option json)
    (self : ContentGenerator) (candidate : gmap string pyval)
    (index_records : list (gmap string pyval)) :
  fst (fst (run (is_semantic_duplicate json_loads candidate index_records) self)) = self /\
  openai_calls (trace (run (is_semantic_duplicate json_loads candidate index_records) self))
  = match index_records with
    | [] => []
    | _ => [semantic_request self candidate index_records]
    end /\
  run (is_semantic_duplicate json_loads candidate []) self = (self, [], Ok false).
Proof.
  assert (Hempty : run (is_semantic_duplicate json_loads candidate []) self
                   = (self, [], Ok false)).
  { assert (Hsel : _select_relevant_index candidate [] 25 = []) by reflexivity.
    unfold is_semantic_duplicate.
    unfold run at 1. unfold mbind at 1. unfold M_bind at 1. unfold get_self.
    cbv zeta. rewrite Hsel. reflexivity. }
  destruct index_records as [| record rest].
  - rewrite Hempty. repeat split.
  - assert (Hrel : _select_relevant_index candidate (record :: rest) 25 <> [])
      by (apply select_relevant_nonempty; discriminate).
    rewrite (run_is_semantic_duplicate json_loads self candidate (record :: rest) Hrel).
    cbv zeta. split; [| split; [| exact Hempty]].
    + destruct (client self _) as [response | exc]; [| reflexivity].
      destruct (output_text response) as [raw_text | e]; [| reflexivity].
      destruct (json_loads raw_text) as [result |]; [| reflexivity].
      destruct (py_get result "duplicate") as [duplicate | e]; reflexivity.
    + destruct (client self _) as [response | exc]; [| reflexivity].
      destruct (output_text response) as [raw_text | e]; [| reflexivity].
      destruct (json_loads raw_text) as [result |]; [| reflexivity].
      destruct (py_get result "duplicate") as [duplicate | e]; [| reflexivity].
      destruct (bool_of duplicate); reflexivity.
Qed.






(** X23. The validation accepts a decoded value exactly when it is a JSON
    object with every required field, at least five faqs and at least one
    image prompt. What it raises on an object is a ValueError; on a list or
    a text it is a ValueError or, when the six field names all occur in it,
    an AttributeError; on a number, a boolean or null it is a TypeError. *)
Theorem validate_payload_accepts_only_objects (payload : json) :
  (_validate_payload payload = Ok tt <->
   exists items, payload = JDict items /\ payload_accepted items = true) /\
  (forall e,
     _validate_payload payload = Raise e ->
     match payload with
     | JDict _ => exn_class e = ValueError
     | JList _ | JStr _ => exn_class e = ValueError \/ exn_class e = AttributeError
     | _ => exn_class e = TypeError
     end).
Proof.
  assert (Hseq : forall p,
            (forall items, p <> JDict items) ->
            (forall e, _validate_payload p = Raise e ->
                       exn_class e = ValueError \/ exn_class e = AttributeError) ->
            (forall field, exists present, py_in field p = Ok present) ->
            _validate_payload p <> Ok tt).
  { intros p Hnot _ Hin Hok. unfold _validate_payload in Hok.
    destruct (missing_fields required_fields p) as [[| field missing] | e];
      cbn [mbind result_bind] in Hok; try discriminate Hok.
    destruct p; try discriminate Hok. exfalso. eapply Hnot. reflexivity. }
  destruct payload as [| b | n | f | s | l | items].
  1-4: (split; [split; [discriminate | intros (items & H & _); discriminate H]
              | intros e He; injection He as <-; reflexivity]).
  - assert (Hraise : forall e, _validate_payload (JStr s) = Raise e ->
                      exn_class e = ValueError \/ exn_class e = AttributeError).
    { intros e. unfold _validate_payload, required_fields.
      cbn [missing_fields py_in mbind result_bind py_get].
      repeat match goal with
             | |- context [contains s ?field] => destruct (contains s field)
             end;
      intros He; injection He as <-; auto. }
    split; [| exact Hraise].
    split; [| intros (items & H & _); discriminate H].
    intros Hok. exfalso. revert Hok. apply Hseq; [discriminate | exact Hraise |].
    intros field. eexists. reflexivity.
  - assert (Hraise : forall e, _validate_payload (JList l) = Raise e ->
                      exn_class e = ValueError \/ exn_class e = AttributeError).
    { intros e. unfold _validate_payload, required_fields.
      cbn [missing_fields py_in mbind result_bind py_get].
      repeat match goal with
             | |- context [existsb ?p l] => destruct (existsb p l)
             end;
      intros He; injection He as <-; auto. }
    split; [| exact Hraise].
    split; [| intros (items & H & _); discriminate H].
    intros Hok. exfalso. revert Hok. apply Hseq; [discriminate | exact Hraise |].
    intros field. eexists. reflexivity.
  - pose proof (validate_payload_dict items) as Hvalid.
    destruct (payload_accepted items) eqn:Haccepted.
    + split.
      * split; [intros _; exists items; split; [reflexivity | exact Haccepted]
               | intros _; exact Hvalid].
      * intros e He. rewrite Hvalid in He. discriminate He.
    + destruct Hvalid as [msg Hmsg]. split.
      * split; [rewrite Hmsg; discriminate |].
        intros (items' & Heq & Hacc). injection Heq as <-. congruence.
      * intros e He. rewrite Hmsg in He. injection He as <-. reflexivity.
Qed.

(** X24. Whatever the client answers, [generate] leaves the generator as it
    was and sends exactly one request, the one built from the payload; an
    exception of the call is raised again as it is; and a value is returned
    only if it is what the decoder made of a response text that is not
    empty, and it is an object that the validation accepts. *)
Theorem generate_outcomes (json_loads : string -> option json)
    (self : ContentGenerator) (payload : gmap string pyval) :
  fst (fst (run (generate json_loads payload) self)) = self /\
  openai_calls (trace (run (generate json_loads payload) self))
  = [generate_request self (build_prompt payload)] /\
  (forall exc,
     client self (generate_request self (build_prompt payload)) = Raise exc ->
     outcome (run (generate json_loads payload) self) = Raise exc) /\
  (forall parsed,
     outcome (run (generate json_loads payload) self) = Ok parsed ->
     exists response content items,
       client self (generate_request self (build_prompt payload)) = Ok response /\
       output_text response = Ok content /\
       truthy content = true /\
       json_loads content = Some parsed /\
       parsed = JDict items /\
       payload_accepted items = true).
Proof.
  rewrite run_generate. cbv zeta.
  destruct (client self _) as [response | exc] eqn:Hcall.
  2: { split; [reflexivity |]. split; [reflexivity |]. split.
       - intros exc' H. injection H as <-. reflexivity.
       - intros parsed H. discriminate H. }
  destruct (output_text response) as [content | e] eqn:Htext.
  2: { split; [reflexivity |]. split; [reflexivity |]. split.
       - intros exc' H. discriminate H.
       - intros parsed H. discriminate H. }
  destruct (truthy content) eqn:Hcontent; cbn [negb].
  2: { split; [reflexivity |]. split; [reflexivity |]. split.
       - intros exc' H. discriminate H.
       - intros parsed H. discriminate H. }
  destruct (json_loads content) as [decoded |] eqn:Hloads.
  2: { split; [reflexivity |]. split; [reflexivity |]. split.
       - intros exc' H. discriminate H.
       - intros parsed H. discriminate H. }
  destruct (_validate_payload decoded) as [[] | e] eqn:Hvalid.
  2: { split; [reflexivity |]. split; [reflexivity |]. split.
       - intros exc' H. discriminate H.
       - intros parsed H. discriminate H. }
  split; [reflexivity |]. split; [reflexivity |]. split.
  - intros exc' H. discriminate H.
  - intros parsed H. injection H as <-.
    assert (Hdict : exists items, decoded = JDict items /\ payload_accepted items = true).
    { destruct decoded as [| b | n | f | s | l | items]; try discriminate Hvalid.
      - exfalso. revert Hvalid. unfold _validate_payload, required_fields.
        cbn [missing_fields py_in mbind result_bind py_get].
        repeat match goal with
               | |- context [contains s ?field] => destruct (contains s field)
               end; discriminate.
      - exfalso. revert Hvalid. unfold _validate_payload, required_fields.
        cbn [missing_fields py_in mbind result_bind py_get].
        repeat match goal with
               | |- context [existsb ?p l] => destruct (existsb p l)
               end; discriminate.
      - exists items. split; [reflexivity |].
        pose proof (validate_payload_dict items) as Hv.
        destruct (payload_accepted items); [reflexivity |].
        destruct Hv as [msg Hmsg]. congruence. }
    destruct Hdict as (items & -> & Hacc).
    exists response, content, items. repeat split; assumption.
Qed.

(** ** Properties of the WordPress client *)

Section wordpress_client.

Import wordpress.

Variable site : Type.
Variable serve : site -> http_request -> site * reply http_response.

Lemma requests_of_app (ev1 ev2 : list wp_event) :
  requests_of (ev1 ++ ev2) = (requests_of ev1 ++ requests_of ev2)%list.
Proof. unfold requests_of. apply omap_app. Qed.

Lemma run_find_category (self : WordPressClient) (s : site) (normalized_name : string) :
  exists s' evs r,
    run_wp site (_find_category site serve normalized_name) self s = (self, s', evs, r) /\
    requests_of evs = [find_request self normalized_name].
Proof.
  unfold run_wp, _find_category.
  unfold mbind at 1. unfold W_bind at 1. unfold self_. cbn [fst snd].
  unfold mbind at 1. unfold W_bind at 1. unfold session_request at 1. cbn [fst snd].
  destruct (serve s (find_request self normalized_name)) as [s' [response | e]];
    [| eexists _, _, _; split; reflexivity].
  destruct (400 <=? status_code response)%Z.
  { eexists _, _, _. split; reflexivity. }
  unfold mbind at 1. unfold W_bind at 1. unfold lift_reply at 1.
  destruct (json_of response) as [items | e]; [| eexists _, _, _; split; reflexivity].
  destruct (bool_of items); cbn [negb]; [| eexists _, _, _; split; reflexivity].
  unfold mbind at 1. unfold W_bind at 1. unfold lift_reply at 1.
  destruct (first_item items) as [item | e]; [| eexists _, _, _; split; reflexivity].
  unfold lift_reply. destruct (get item "id"); eexists _, _, _; split; reflexivity.
Qed.

Lemma run_create_category (self : WordPressClient) (s : site) (category_name : string) :
  exists s' evs r,
    run_wp site (_create_category site serve category_name) self s = (self, s', evs, r) /\
    requests_of evs = [create_request self category_name].
Proof.
  unfold run_wp, _create_category.
  unfold mbind at 1. unfold W_bind at 1. unfold self_. cbn [fst snd].
  unfold mbind at 1. unfold W_bind at 1. unfold session_request at 1. cbn [fst snd].
  destruct (serve s (create_request self category_name)) as [s' [response | e]];
    [| eexists _, _, _; split; reflexivity].
  destruct (400 <=? status_code response)%Z.
  { eexists _, _, _. split; reflexivity. }
  unfold mbind at 1. unfold W_bind at 1. unfold lift_reply at 1.
  destruct (json_of response) as [data | e]; [| eexists _, _, _; split; reflexivity].
  unfold lift_reply. destruct (get data "id"); eexists _, _, _; split; reflexivity.
Qed.

Lemma run_ensure_category_cached (self : WordPressClient) (s : site)
    (category_name : string) (cached : json) :
  category_cache self !! lower (strip category_name) = Some cached ->
  run_wp site (_ensure_category site serve category_name) self s
  = (self, s, [], Returns cached).
Proof.
  intros Hcached. unfold run_wp, _ensure_category. cbv zeta.
  unfold mbind at 1. unfold W_bind at 1. unfold self_. cbn [fst snd].
  rewrite Hcached. reflexivity.
Qed.

(** Every path of [_ensure_category] for a name that is not in the cache. *)
Lemma run_ensure_category_missing (self : WordPressClient) (s : site)
    (category_name : string) :
  category_cache self !! lower (strip category_name) = None ->
  exists s1 ev1 r1,
    run_wp site (_find_category site serve (lower (strip category_name))) self s
      = (self, s1, ev1, r1) /\
    requests_of ev1 = [find_request self (lower (strip category_name))] /\
    match r1 with
    | Raises e =>
        run_wp site (_ensure_category site serve category_name) self s
        = (self, s1, ev1, Raises e)
    | Returns found =>
        if bool_of found then
          run_wp site (_ensure_category site serve category_name) self s
          = (with_category self (lower (strip category_name)) found, s1, ev1, Returns found)
        else
          exists s2 ev2 r2,
            run_wp site (_create_category site serve category_name) self s1
              = (self, s2, ev2, r2) /\
            requests_of ev2 = [create_request self category_name] /\
            run_wp site (_ensure_category site serve category_name) self s
            = (match r2 with
               | Returns created =>
                   if bool_of created
                   then with_category self (lower (strip category_name)) created
                   else self
               | Raises _ => self
               end, s2, (ev1 ++ ev2)%list, r2)
    end.
Proof.
  intros Hmissing.
  destruct (run_find_category self s (lower (strip category_name)))
    as (s1 & ev1 & r1 & Hfind & Hreq1).
  exists s1, ev1, r1. split; [exact Hfind |]. split; [exact Hreq1 |].
  unfold run_wp in Hfind.
  assert (Hstart :
            run_wp site (_ensure_category site serve category_name) self s
            = (_find_category site serve (lower (strip category_name)) ≫= 
                 (fun category_id =>
                    if bool_of category_id
                    then cache_category site (lower (strip category_name)) category_id
                         ≫= (fun _ => mret category_id)
                    else _create_category site serve category_name
                         ≫= (fun category_id0 =>
                               (if bool_of category_id0
                                then cache_category site (lower (strip category_name))
                                       category_id0
                                else mret tt)
                               ≫= (fun _ => mret category_id0)))) (self, s)).
  { unfold run_wp, _ensure_category. cbv zeta.
    unfold mbind at 1. unfold W_bind at 1. unfold self_ at 1. cbn [fst snd].
    rewrite Hmissing.
    match goal with |- _ = ?m => destruct m as [[st evs] r] end.
    reflexivity. }
  destruct r1 as [found | e].
  2: { rewrite Hstart. unfold mbind at 1. unfold W_bind at 1. rewrite Hfind. reflexivity. }
  destruct (bool_of found) eqn:Hfound.
  - rewrite Hstart. unfold mbind at 1. unfold W_bind at 1. rewrite Hfind, Hfound.
    unfold mbind, W_bind, cache_category, mret, W_ret. cbn [fst snd app].
    rewrite app_nil_r. reflexivity.
  - destruct (run_create_category self s1 category_name)
      as (s2 & ev2 & r2 & Hcreate & Hreq2).
    exists s2, ev2, r2. split; [exact Hcreate |]. split; [exact Hreq2 |].
    unfold run_wp in Hcreate.
    rewrite Hstart. unfold mbind at 1. unfold W_bind at 1. rewrite Hfind, Hfound.
    unfold mbind at 1. unfold W_bind at 1. rewrite Hcreate.
    destruct r2 as [created | e]; [| reflexivity].
    destruct (bool_of created);
      unfold mbind, W_bind, cache_category, mret, W_ret; cbn [fst snd app];
      rewrite ?app_nil_r; reflexivity.
Qed.


(** X25. A category that has been resolved is not looked up again: after a
    call of [_ensure_category] that returns an id that is not falsy, a call
    for any name with the same trimmed, lower-cased form returns that id
    from the cache, whatever the site has become, with no request sent and
    nothing logged. *)
Theorem ensure_category_is_cached (self self' : WordPressClient) (s s' : site)
    (evs : list wp_event) (category_name other_name : string) (category_id : json) :
  run_wp site (_ensure_category site serve category_name) self s
    = (self', s', evs, Returns category_id) ->
  bool_of category_id = true ->
  lower (strip other_name) = lower (strip category_name) ->
  forall later : site,
    run_wp site (_ensure_category site serve other_name) self' later
    = (self', later, [], Returns category_id).
Proof.
  intros Hrun Htruthy Hsame later. apply run_ensure_category_cached. rewrite Hsame.
  destruct (category_cache self !! lower (strip category_name)) as [cached |] eqn:Hcache.
  - rewrite (run_ensure_category_cached self s category_name cached Hcache) in Hrun.
    injection Hrun as <- _ _ <-. exact Hcache.
  - destruct (run_ensure_category_missing self s category_name Hcache)
      as (s1 & ev1 & r1 & _ & _ & Hcases).
    destruct r1 as [found | e]; [| rewrite Hcases in Hrun; discriminate Hrun].
    destruct (bool_of found).
    + rewrite Hcases in Hrun. injection Hrun as <- _ _ <-.
      cbn [with_category category_cache]. apply lookup_insert_eq.
    + destruct Hcases as (s2 & ev2 & r2 & _ & _ & Hensure).
      rewrite Hensure in Hrun. injection Hrun as <- _ _ ->.
      rewrite Htruthy. cbn [with_category category_cache]. apply lookup_insert_eq.
Qed.


(** X27. [_ensure_category] gives up only after both attempts: when no
    falsy id is in the cache, a call that returns a falsy value (None, 0)
    has sent the search and then the creation, and has left the cache as it
    was, so that the next call tries again. *)
Theorem ensure_category_gives_up_after_both (self self' : WordPressClient) (s s' : site)
    (evs : list wp_event) (category_name : string) (category_id : json) :
  map_Forall (fun _ cached => bool_of cached = true) (category_cache self) ->
  run_wp site (_ensure_category site serve category_name) self s
    = (self', s', evs, Returns category_id) ->
  bool_of category_id = false ->
  self' = self /\
  requests_of evs = [find_request self (lower (strip category_name));
                     create_request self category_name].
Proof.
  intros Hcached Hrun Hfalsy.
  destruct (category_cache self !! lower (strip category_name)) as [cached |] eqn:Hcache.
  - rewrite (run_ensure_category_cached self s category_name cached Hcache) in Hrun.
    injection Hrun as _ _ _ <-. apply Hcached in Hcache. cbn beta in Hcache. congruence.
  - destruct (run_ensure_category_missing self s category_name Hcache)
      as (s1 & ev1 & r1 & _ & Hreq1 & Hcases).
    destruct r1 as [found | e]; [| rewrite Hcases in Hrun; discriminate Hrun].
    destruct (bool_of found) eqn:Hfound.
    + rewrite Hcases in Hrun. injection Hrun as _ _ _ <-. congruence.
    + destruct Hcases as (s2 & ev2 & r2 & _ & Hreq2 & Hensure).
      rewrite Hensure in Hrun. injection Hrun as <- _ <- ->.
      rewrite Hfalsy. split; [reflexivity |].
      rewrite requests_of_app, Hreq1, Hreq2. reflexivity.
Qed.

Lemma take_chars_prefix (n : nat) (s : string) : startswith s (take_chars n s) = true.
Proof.
  unfold startswith. revert n.
  induction s as [| c rest IH]; intros n; cbn [take_chars]; [reflexivity |].
  destruct (is_continuation c).
  - cbn [String.prefix]. destruct (Ascii.ascii_dec c c); [apply IH | congruence].
  - destruct n as [| n]; [reflexivity |].
    cbn [String.prefix]. destruct (Ascii.ascii_dec c c); [apply IH | congruence].
Qed.

Lemma take_chars_count (n : nat) (s : string) : (char_count (take_chars n s) <= n)%nat.
Proof.
  revert n. induction s as [| c rest IH]; intros n; cbn [take_chars char_count]; [lia |].
  destruct (is_continuation c) eqn:Hc.
  - cbn [char_count]. rewrite Hc. apply IH.
  - destruct n as [| n]; [cbn; lia |].
    cbn [char_count]. rewrite Hc. specialize (IH n). lia.
Qed.

Lemma take_chars_all (n : nat) (s : string) :
  (char_count s <= n)%nat -> take_chars n s = s.
Proof.
  revert n. induction s as [| c rest IH]; intros n; cbn [take_chars char_count];
    [reflexivity |].
  destruct (is_continuation c).
  - intros H. rewrite IH; [reflexivity | exact H].
  - destruct n as [| n]; [lia |]. intros H. rewrite IH; [reflexivity | lia].
Qed.

(** X28. The payload of a post carries an excerpt exactly when a meta
    description that is not empty is given; the excerpt is then a prefix of
    the meta description of at most 300 characters, and the whole of it
    when it is no longer than that. It carries a slug exactly when one that
    is not empty is given, and then trimmed. *)
Theorem post_fields_excerpt_and_slug (self : WordPressClient) (title content_html : string)
    (meta_description slug : option string) :
  match dict_lookup (post_fields self title content_html meta_description slug) "excerpt"
  with
  | Some excerpt =>
      exists description cut,
        meta_description = Some description /\ truthy description = true /\
        excerpt = JStr cut /\ startswith description cut = true /\
        (char_count cut <= 300)%nat /\
        ((char_count description <= 300)%nat -> cut = description)
  | None => given meta_description = false
  end /\
  dict_lookup (post_fields self title content_html meta_description slug) "slug"
  = (if given slug then Some (JStr (strip (default "" slug))) else None).
Proof.
  unfold post_fields.
  destruct meta_description as [description |]; cbn [given default].
  - destruct (truthy description) eqn:Htruthy.
    + split; [| destruct (given slug); reflexivity].
      cbn. exists description, (take_chars 300 description).
      split; [reflexivity |]. split; [exact Htruthy |]. split; [reflexivity |].
      split; [apply take_chars_prefix |]. split; [apply take_chars_count |].
      apply take_chars_all.
    + split; [destruct (given slug); reflexivity | destruct (given slug); reflexivity].
  - split; destruct (given slug); reflexivity.
Qed.

(** X29. Without a category, [publish_post] sends one request, the post,
    and leaves the client as it was. It raises what the session raises; on
    a status from 400 to 599 it logs an error and raises the [HTTPError] of
    [raise_for_status]; on any other status, also one of 600 or more, it
    returns the decoded body when that is an object, and raises what
    [json()] raises or, for a body that is no object, an [AttributeError],
    although the post has been sent. *)
Theorem publish_post_without_category (self : WordPressClient) (s : site)
    (title content_html : string) (meta_description category_name slug : option string) :
  given category_name = false ->
  exists s' answer evs,
    serve s (post_request self (post_fields self title content_html meta_description slug))
      = (s', answer) /\
    run_wp site
      (publish_post site serve title content_html meta_description category_name slug)
      self s
    = (self, s', evs,
       match answer with
       | Raises e => Raises e
       | Returns response =>
           if (400 <=? status_code response)%Z && (status_code response <? 600)%Z
           then Raises (HTTPError (status_code response))
           else
             match json_of response with
             | Raises e => Raises e
             | Returns (JDict items) => Returns (JDict items)
             | Returns _ =>
                 Raises (Builtin (Exn AttributeError "object has no attribute 'get'"))
             end
       end) /\
    requests_of evs
    = [post_request self (post_fields self title content_html meta_description slug)].
Proof.
  intros Hnone.
  destruct (serve s (post_request self
                       (post_fields self title content_html meta_description slug)))
    as [s' answer] eqn:Hserve.
  exists s', answer.
  unfold run_wp, publish_post.
  unfold mbind at 1. unfold W_bind at 1. unfold self_ at 1. cbn [fst snd]. cbv zeta.
  rewrite Hnone.
  unfold mbind at 1. unfold W_bind at 1. unfold mret at 1. unfold W_ret at 1.
  unfold mbind at 1. unfold W_bind at 1. unfold session_request at 1. cbn [fst snd].
  rewrite Hserve.
  destruct answer as [response | e]; [| eexists; split; [reflexivity |]; split; reflexivity].
  unfold mbind at 1. unfold W_bind at 1.
  destruct (400 <=? status_code response)%Z eqn:Hstatus; cbn [andb].
  - unfold mbind at 1. unfold W_bind at 1. unfold logger at 1.
    unfold lift_reply at 1. unfold raise_for_status. rewrite Hstatus. cbn [andb].
    destruct (status_code response <? 600)%Z;
      [eexists; split; [reflexivity |]; split; reflexivity |].
    unfold mbind at 1. unfold W_bind at 1. unfold lift_reply at 1.
    destruct (json_of response) as [data | e];
      [| eexists; split; [reflexivity |]; split; reflexivity].
    unfold mbind at 1. unfold W_bind at 1. unfold lift_reply at 1. unfold get, py_get.
    destruct data; eexists; (split; [reflexivity |]); split; reflexivity.
  - unfold mret at 1. unfold W_ret at 1.
    unfold mbind at 1. unfold W_bind at 1. unfold lift_reply at 1.
    destruct (json_of response) as [data | e];
      [| eexists; split; [reflexivity |]; split; reflexivity].
    unfold mbind at 1. unfold W_bind at 1. unfold lift_reply at 1. unfold get, py_get.
    destruct data; eexists; (split; [reflexivity |]); split; reflexivity.
Qed.

(** X30. When the category cannot be looked up, the post is not sent: an
    exception raised inside [_ensure_category] leaves [publish_post] with
    the same exception, after the requests for the category only. *)
Theorem publish_post_category_failure (self self' : WordPressClient) (s s' : site)
    (evs : list wp_event) (e : wp_exception)
    (title content_html : string) (meta_description category_name slug : option string) :
  given category_name = true ->
  run_wp site (_ensure_category site serve (default "" category_name)) self s
    = (self', s', evs, Raises e) ->
  run_wp site
    (publish_post site serve title content_html meta_description category_name slug)
    self s
  = (self', s', evs, Raises e) /\
  Forall (fun r => http_url r = base_url self ++ "/wp-json/wp/v2/categories")
         (requests_of evs).
Proof.
  intros Hgiven Hensure. split.
  - unfold run_wp in *. unfold publish_post.
    unfold mbind at 1. unfold W_bind at 1. unfold self_ at 1. cbn [fst snd]. cbv zeta.
    rewrite Hgiven.
    unfold mbind at 1. unfold W_bind at 1.
    unfold mbind at 1. unfold W_bind at 1. rewrite Hensure. reflexivity.
  - destruct (category_cache self !! lower (strip (default "" category_name)))
      as [cached |] eqn:Hcache.
    + rewrite (run_ensure_category_cached self s _ cached Hcache) in Hensure.
      discriminate Hensure.
    + destruct (run_ensure_category_missing self s _ Hcache)
        as (s1 & ev1 & r1 & _ & Hreq1 & Hcases).
      destruct r1 as [found | e1].
      2: { rewrite Hcases in Hensure. injection Hensure as _ _ <- _.
           rewrite Hreq1. repeat constructor. }
      destruct (bool_of found).
      * rewrite Hcases in Hensure. discriminate Hensure.
      * destruct Hcases as (s2 & ev2 & r2 & _ & Hreq2 & Hrun).
        rewrite Hrun in Hensure. injection Hensure as _ _ <- _.
        rewrite requests_of_app, Hreq1, Hreq2. repeat constructor.
Qed.

End wordpress_client.

Lemma ensure_category_is_cached_witness :
  wordpress.run_wp unit
    (wordpress._ensure_category unit wordpress.creating_site " gatos")
    (wordpress.with_category wordpress.blog_client "gatos" (JInt 7)) tt
  = (wordpress.with_category wordpress.blog_client "gatos" (JInt 7), tt, [],
     wordpress.Returns (JInt 7)).
Proof.
  apply (ensure_category_is_cached unit wordpress.creating_site wordpress.blog_client _ tt tt
           [wordpress.Sent (wordpress.find_request wordpress.blog_client "gatos");
            wordpress.Sent (wordpress.create_request wordpress.blog_client "Gatos ")]
           "Gatos " " gatos" (JInt 7)).
  - vm_compute. reflexivity.
  - reflexivity.
  - vm_compute. reflexivity.
Defined.

Lemma ensure_category_gives_up_after_both_witness :
  wordpress.blog_client = wordpress.blog_client /\
  wordpress.requests_of
    [wordpress.Sent (wordpress.find_request wordpress.blog_client "gatos");
     wordpress.Logged ERROR "Error buscando categoría '%s': %s";
     wordpress.Sent (wordpress.create_request wordpress.blog_client "Gatos ");
     wordpress.Logged ERROR "Error creando categoría '%s': %s"]
  = [wordpress.find_request wordpress.blog_client (lower (strip "Gatos "));
     wordpress.create_request wordpress.blog_client "Gatos "].
Proof.
  apply (ensure_category_gives_up_after_both unit wordpress.failing_site
           wordpress.blog_client wordpress.blog_client tt tt _ "Gatos " JNull).
  - apply map_Forall_empty.
  - vm_compute. reflexivity.
  - reflexivity.
Defined.

Lemma publish_post_without_category_witness :
  exists s' answer evs,
    wordpress.creating_site tt
      (wordpress.post_request wordpress.blog_client
         (wordpress.post_fields wordpress.blog_client "Gatos" "<p>Gatos</p>"
            (Some "Todo sobre gatos") (Some " gatos ")))
      = (s', answer) /\
    wordpress.run_wp unit
      (wordpress.publish_post unit wordpress.creating_site "Gatos" "<p>Gatos</p>"
         (Some "Todo sobre gatos") None (Some " gatos "))
      wordpress.blog_client tt
    = (wordpress.blog_client, s', evs,
       match answer with
       | wordpress.Raises e => wordpress.Raises e
       | wordpress.Returns response =>
           if (400 <=? wordpress.status_code response)%Z
              && (wordpress.status_code response <? 600)%Z
           then wordpress.Raises (wordpress.HTTPError (wordpress.status_code response))
           else
             match wordpress.json_of response with
             | wordpress.Raises e => wordpress.Raises e
             | wordpress.Returns (JDict items) => wordpress.Returns (JDict items)
             | wordpress.Returns _ =>
                 wordpress.Raises
                   (wordpress.Builtin (Exn AttributeError "object has no attribute 'get'"))
             end
       end) /\
    wordpress.requests_of evs
    = [wordpress.post_request wordpress.blog_client
         (wordpress.post_fields wordpress.blog_client "Gatos" "<p>Gatos</p>"
            (Some "Todo sobre gatos") (Some " gatos "))].
Proof. apply publish_post_without_category. reflexivity. Defined.

Lemma publish_post_category_failure_witness :
  wordpress.run_wp unit
    (wordpress.publish_post unit wordpress.numeric_site "Gatos" "<p>Gatos</p>"
       None (Some "Gatos") None)
    wordpress.blog_client tt
  = (wordpress.blog_client, tt,
     [wordpress.Sent (wordpress.find_request wordpress.blog_client "gatos")],
     wordpress.Raises (wordpress.Builtin (Exn TypeError "object is not subscriptable")))
  /\
  Forall (fun r => wordpress.http_url r
                   = wordpress.base_url wordpress.blog_client ++ "/wp-json/wp/v2/categories")
         (wordpress.requests_of
            [wordpress.Sent (wordpress.find_request wordpress.blog_client "gatos")]).
Proof.
  apply publish_post_category_failure.
  - reflexivity.
  - vm_compute. reflexivity.
Defined.
